(** * Authentication service of smooth-transact-api

    Shallow embedding of [src/auth/auth.service.ts] (class [AuthService]):
    signup, signin, signout, refresh, and the OTP based password reset.

    Every [async] method becomes a computation in a state-and-exception
    monad over a [World]: the credential store, the expiring key-value
    cache, the wall clock, the entropy consumed by salt generation and the
    trace of collaborator calls.  A thrown exception keeps the effects
    performed before it, the way a rejected promise does. *)

From Stdlib Require Import ZArith NArith String Ascii DecimalString List Bool Lia.
From stdpp Require Import base gmap strings list fin_maps.

Local Open Scope string_scope.
Local Open Scope Z_scope.

(* ===================================================================== *)
(** ** Regular expressions, as used by [String.prototype.match] *)
(* ===================================================================== *)

Module Regex.

(** Regular expressions over single characters; [Class p] is a bracket
    expression such as [[a-z0-9.-]]. *)
Inductive regex : Type :=
| Void
| Eps
| Class (p : ascii -> bool)
| Seq (r1 r2 : regex)
| Alt (r1 r2 : regex)
| Star (r : regex).

Fixpoint nullable (r : regex) : bool :=
  match r with
  | Void => false
  | Eps => true
  | Class _ => false
  | Seq r1 r2 => nullable r1 && nullable r2
  | Alt r1 r2 => nullable r1 || nullable r2
  | Star _ => true
  end.

(** Brzozowski derivative: the residual expression after reading [a]. *)
Fixpoint deriv (a : ascii) (r : regex) : regex :=
  match r with
  | Void => Void
  | Eps => Void
  | Class p => if p a then Eps else Void
  | Seq r1 r2 =>
      if nullable r1
      then Alt (Seq (deriv a r1) r2) (deriv a r2)
      else Seq (deriv a r1) r2
  | Alt r1 r2 => Alt (deriv a r1) (deriv a r2)
  | Star r1 => Seq (deriv a r1) (Star r1)
  end.

(** Whole-string match (the pattern is anchored by [^] and [$]). *)
Fixpoint matches (r : regex) (s : string) : bool :=
  match s with
  | EmptyString => nullable r
  | String a s' => matches (deriv a r) s'
  end.

(** [r+] *)
Definition Plus (r : regex) : regex := Seq r (Star r).
(** [r?] *)
Definition Opt (r : regex) : regex := Alt Eps r.
(** A literal character. *)
Definition Lit (c : ascii) : regex := Class (Ascii.eqb c).

(** The language of an expression, declaratively. *)
Inductive lang : regex -> string -> Prop :=
| lang_Eps : lang Eps EmptyString
| lang_Class p c : p c = true -> lang (Class p) (String c EmptyString)
| lang_Seq r1 r2 s1 s2 :
    lang r1 s1 -> lang r2 s2 -> lang (Seq r1 r2) (s1 +:+ s2)
| lang_Alt_l r1 r2 s : lang r1 s -> lang (Alt r1 r2) s
| lang_Alt_r r1 r2 s : lang r2 s -> lang (Alt r1 r2) s
| lang_Star_nil r : lang (Star r) EmptyString
| lang_Star_cons r s1 s2 :
    lang r s1 -> lang (Star r) s2 -> lang (Star r) (s1 +:+ s2).

(** [admits r c]: the character [c] may occur in some word of [r]. *)
Fixpoint admits (r : regex) (c : ascii) : bool :=
  match r with
  | Void | Eps => false
  | Class p => p c
  | Seq r1 r2 | Alt r1 r2 => admits r1 c || admits r2 c
  | Star r1 => admits r1 c
  end.

(** [dead r]: a syntactic criterion for the empty language. *)
Fixpoint dead (r : regex) : bool :=
  match r with
  | Void => true
  | Eps | Class _ | Star _ => false
  | Seq r1 r2 => dead r1 || dead r2
  | Alt r1 r2 => dead r1 && dead r2
  end.

End Regex.

(* ===================================================================== *)
(** ** Characters and strings, JavaScript style *)
(* ===================================================================== *)

Definition code (c : ascii) : N := N_of_ascii c.

Definition in_range (lo hi : N) (c : ascii) : bool :=
  ((lo <=? code c) && (code c <=? hi))%N.

(** [a-z] *)
Definition is_lower (c : ascii) : bool := in_range 97 122 c.
(** [A-Z] *)
Definition is_upper (c : ascii) : bool := in_range 65 90 c.
(** [0-9] *)
Definition is_digit (c : ascii) : bool := in_range 48 57 c.

Definition one_of (cs : string) (c : ascii) : bool :=
  existsb (Ascii.eqb c) (list_ascii_of_string cs).

(** [[a-z0-9._%+-]] *)
Definition local_char (c : ascii) : bool :=
  is_lower c || is_digit c || one_of "._%+-" c.

(** [[a-z0-9.-]] *)
Definition domain_char (c : ascii) : bool :=
  is_lower c || is_digit c || one_of ".-" c.

(** [String.prototype.toLowerCase] on the ASCII range. *)
Definition lower_char (c : ascii) : ascii :=
  if is_upper c then ascii_of_N (code c + 32) else c.

Fixpoint toLowerCase (s : string) : string :=
  match s with
  | EmptyString => EmptyString
  | String c s' => String (lower_char c) (toLowerCase s')
  end.

(** The first [n] bytes of [s] (all of it when shorter). *)
Fixpoint first_bytes (n : nat) (s : string) : string :=
  match n, s with
  | S n', String c s' => String c (first_bytes n' s')
  | _, _ => EmptyString
  end.

(** Some character of [s] satisfies [p]. *)
Fixpoint has_char (p : ascii -> bool) (s : string) : bool :=
  match s with
  | EmptyString => false
  | String c s' => p c || has_char p s'
  end.

(** JavaScript truthiness of a string: only the empty string is falsy. *)
Definition truthy_string (s : string) : bool :=
  match s with EmptyString => false | _ => true end.

(** Truthiness of a possibly missing ([undefined]/[null]) string. *)
Definition truthy_opt_string (s : option string) : bool :=
  match s with Some s' => truthy_string s' | None => false end.

(** [^[a-z0-9._%+-]+@[a-z0-9.-]+\.[a-z]{2,4}$], the pattern of
    [validateEmail]; [{2,4}] is unfolded into two mandatory and two
    optional letters. *)
Definition emailRegex : Regex.regex :=
  let lower := Regex.Class is_lower in
  Regex.Seq (Regex.Plus (Regex.Class local_char))
    (Regex.Seq (Regex.Lit "@")
       (Regex.Seq (Regex.Plus (Regex.Class domain_char))
          (Regex.Seq (Regex.Lit ".")
             (Regex.Seq lower
                (Regex.Seq lower
                   (Regex.Opt (Regex.Seq lower (Regex.Opt lower)))))))).

(** [email.match(emailRegex)] is non-null. *)
Definition email_matches (email : string) : bool :=
  Regex.matches emailRegex email.

(* ===================================================================== *)
(** ** Data model *)
(* ===================================================================== *)

(** The [User] entity: a credential record.  [password] is optional
    because the service scrubs it ([user.password = undefined]) before
    handing a user out; [refreshToken] is the nullable column holding the
    hash of the current refresh token. *)
Module User.
Record t : Type := mk {
  id : string;
  email : string;
  password : option string;
  role : string;
  refreshToken : option string
}.

Definition set_password (p : option string) (u : t) : t :=
  mk (id u) (email u) p (role u) (refreshToken u).

Definition set_refreshToken (r : option string) (u : t) : t :=
  mk (id u) (email u) (password u) (role u) r.
End User.

(** [CreateUserDto]: what [signup] receives. *)
Module CreateUserDto.
Record t : Type := mk { email : string; password : string }.
End CreateUserDto.

(** The partial objects handed to [usersService.update]: a field is
    absent ([None]) or set; [refreshToken] can be set to [null]. *)
Module UpdateUser.
Record t : Type := mk {
  password : option string;
  refreshToken : option (option string)
}.
End UpdateUser.

(** [Payload] of [auth.type]: the claims put into a token. *)
Record Payload : Type := mkPayload { sub : string; payload_role : string }.

(** [JwtSignOptions], as far as [getTokenOption] fills it. *)
Record JwtSignOptions : Type :=
  mkJwtSignOptions { secret : option string; expiresIn : option string }.

(** The object [signout] receives: [{ user }], possibly without [user]. *)
Record ReqUser : Type := mkReqUser { req_user : option User.t }.

(** What [signin] returns. *)
Record Tokens : Type := mkTokens { accessToken : string; refreshTokenOf : string }.
Record SignIn : Type := mkSignIn { tokens : Tokens; cookie : string }.

(** The exceptions that reach a caller of the service. *)
Inductive Exception : Type :=
| ConflictException (msg : string)
| NotFoundException (msg : string)
| InternalServerErrorException
| TypeError (msg : string)
| SyntaxError (msg : string)
| Error (msg : string).

Inductive Result (A : Type) : Type :=
| Ok (a : A)
| Throw (e : Exception).
Arguments Ok {A} a.
Arguments Throw {A} e.

(** An entry of the expiring cache: the value and the instant (in seconds)
    from which it is gone. *)
Record CacheEntry : Type := mkEntry { value : string; expires_at : Z }.

(** Calls made to the collaborators, in the order they happen. *)
Inductive Call : Type :=
| CallFindByEmail (email : string)
| CallFindOne (id : string)
| CallCreate (email : string)
| CallUpdate (id : string) (partial : UpdateUser.t)
| CallCacheExists (key : string)
| CallCacheGet (key : string)
| CallCacheSet (key val : string) (ttl : Z)
| CallCacheDel (key : string)
| CallCacheSadd (set member : string)
| CallCacheSismember (set member : string).

Record World : Type := mkWorld {
  users : list User.t;                (* the credential store *)
  cache : gmap string CacheEntry;     (* expiring keys of the cache *)
  sets : gmap string (gset string);   (* sets of the cache *)
  now : Z;                            (* wall clock, seconds *)
  entropy : N;                        (* randomness used so far *)
  calls : list Call                   (* collaborator calls so far *)
}.

Definition with_users (us : list User.t) (w : World) : World :=
  mkWorld us (cache w) (sets w) (now w) (entropy w) (calls w).
Definition with_cache (c : gmap string CacheEntry) (w : World) : World :=
  mkWorld (users w) c (sets w) (now w) (entropy w) (calls w).
Definition with_sets (s : gmap string (gset string)) (w : World) : World :=
  mkWorld (users w) (cache w) s (now w) (entropy w) (calls w).
Definition with_entropy (n : N) (w : World) : World :=
  mkWorld (users w) (cache w) (sets w) (now w) n (calls w).
Definition record (c : Call) (w : World) : World :=
  mkWorld (users w) (cache w) (sets w) (now w) (entropy w) (calls w ++ [c]).

(** [d] seconds pass between two requests. *)
Definition elapse (d : Z) (w : World) : World :=
  mkWorld (users w) (cache w) (sets w) (now w + d) (entropy w) (calls w).

(* ===================================================================== *)
(** ** The monad of service methods *)
(* ===================================================================== *)

Definition M (A : Type) : Type := World -> Result A * World.

Definition ret {A} (a : A) : M A := fun w => (Ok a, w).
Definition throw {A} (e : Exception) : M A := fun w => (Throw e, w).
Definition bind {A B} (m : M A) (k : A -> M B) : M B :=
  fun w => match m w with
           | (Ok a, w') => k a w'
           | (Throw e, w') => (Throw e, w')
           end.
(** [try { body } catch (error) { handler }] *)
Definition try_catch {A} (body : M A) (handler : Exception -> M A) : M A :=
  fun w => match body w with
           | (Ok a, w') => (Ok a, w')
           | (Throw e, w') => handler e w'
           end.
Definition get_world : M World := fun w => (Ok w, w).

Notation "'let*' x ':=' c 'in' k" := (bind c (fun x => k))
  (at level 10, x name, c at level 99, k at level 200).
Notation "'do' c 'then' k" := (bind c (fun _ => k))
  (at level 10, c at level 99, k at level 200).

(* ===================================================================== *)
(** ** Collaborators outside the repository *)
(* ===================================================================== *)

(** The configuration surface read through [configService.get]. *)
Record Config : Type := mkConfig {
  access_secret : string;
  access_expiresIn : string;
  refresh_secret : string;
  refresh_expiresIn : string;
  otp_secret : string;
  env : string
}.

Definition config_get (c : Config) (key : string) : option string :=
  if String.eqb key "access_secret" then Some (access_secret c)
  else if String.eqb key "access_expiresIn" then Some (access_expiresIn c)
  else if String.eqb key "refresh_secret" then Some (refresh_secret c)
  else if String.eqb key "refresh_expiresIn" then Some (refresh_expiresIn c)
  else if String.eqb key "otp_secret" then Some (otp_secret c)
  else if String.eqb key "env" then Some (env c)
  else None.

(** The third-party libraries the service calls, as an interface:
    - [bcrypt_hash data salt] and [bcrypt_compare data hash] of [bcrypt];
    - [jwt_sign payload options iat] and [jwt_decode] of [JwtService]; the
      signer stamps the token with the clock second [iat];
    - [hotp secret counter] behind [otplib]'s [totp]: the 6-digit code of
      a time step;
    - [encodeURIComponent], applied by [cookie.serialize] to the value;
    - [uuid n], the identifier the store gives to its [n]-th new row,
      and [default_role], the role column's default. *)
Class Libraries : Type := {
  config : Config;
  bcrypt_hash : string -> N -> string;
  bcrypt_compare : string -> string -> bool;
  jwt_sign : Payload -> JwtSignOptions -> Z -> string;
  jwt_decode : string -> option Payload;
  hotp : string -> Z -> string;
  encodeURIComponent : string -> string;
  uuid : N -> string;
  default_role : string
}.

(* ===================================================================== *)
(** ** Collaborators of the repository: [UsersService], [RedisClient] *)
(* ===================================================================== *)

Module UsersService.

Definition by_email (email : string) (u : User.t) : bool :=
  String.eqb (User.email u) email.
Definition by_id (id : string) (u : User.t) : bool :=
  String.eqb (User.id u) id.

(** Modelled from the spec: [users.service.ts] is missing;
    [findByEmail(email) -> User|null] over a key-addressed record
    store. *)
Definition findByEmail (email : string) : M (option User.t) :=
  fun w => (Ok (List.find (by_email email) (users w)),
            record (CallFindByEmail email) w).

(** Modelled from the spec: [users.service.ts] is missing;
    [findOne(id) -> User|null]. *)
Definition findOne (id : string) : M (option User.t) :=
  fun w => (Ok (List.find (by_id id) (users w)),
            record (CallFindOne id) w).

(** The row made from a DTO: no refresh token yet. *)
Definition new_user `{Libraries} (n : N) (dto : CreateUserDto.t) : User.t :=
  User.mk (uuid n) (CreateUserDto.email dto)
          (Some (CreateUserDto.password dto)) default_role None.

(** Modelled from the spec: [users.service.ts] is missing;
    [create(data) -> User] adds one record and returns it. *)
Definition create `{Libraries} (dto : CreateUserDto.t) : M User.t :=
  fun w =>
    let u := new_user (N.of_nat (length (users w))) dto in
    (Ok u, record (CallCreate (CreateUserDto.email dto))
             (with_users (users w ++ [u]) w)).

Definition patch (p : UpdateUser.t) (u : User.t) : User.t :=
  let u1 := match UpdateUser.password p with
            | Some h => User.set_password (Some h) u
            | None => u
            end in
  match UpdateUser.refreshToken p with
  | Some r => User.set_refreshToken r u1
  | None => u1
  end.

Definition patch_at (id : string) (p : UpdateUser.t) (u : User.t) : User.t :=
  if by_id id u then patch p u else u.

(** Modelled from the spec: [users.service.ts] is missing;
    [update(id, partial) -> User] overwrites the given fields of the
    record with that id and returns the record as it is afterwards
    ([null] when there is none). *)
Definition update (id : string) (p : UpdateUser.t) : M (option User.t) :=
  fun w =>
    let us := List.map (patch_at id p) (users w) in
    (Ok (List.find (by_id id) us),
     record (CallUpdate id p) (with_users us w)).

End UsersService.

Module RedisClient.

(** An entry is visible until its expiration instant. *)
Definition live (t : Z) (e : CacheEntry) : bool := t <? expires_at e.

Definition read (key : string) (w : World) : option string :=
  match cache w !! key with
  | Some e => if live (now w) e then Some (value e) else None
  | None => None
  end.

(** Modelled from the spec: [utils/redis.ts] is missing; [get(key)] of
    the expiring key store, [null] for an absent or expired key. *)
Definition get (key : string) : M (option string) :=
  fun w => (Ok (read key w), record (CallCacheGet key) w).

(** Modelled from the spec: [utils/redis.ts] is missing; [exists(key)]. *)
Definition exists_ (key : string) : M bool :=
  fun w => (Ok (bool_decide (is_Some (read key w))),
            record (CallCacheExists key) w).

(** Modelled from the spec: [utils/redis.ts] is missing;
    [set(key, value, ttlSeconds)]: the entry expires [ttl] seconds from
    now. *)
Definition set (key val : string) (ttl : Z) : M unit :=
  fun w => (Ok tt,
            record (CallCacheSet key val ttl)
              (with_cache (<[key := mkEntry val (now w + ttl)]> (cache w)) w)).

(** Modelled from the spec: [utils/redis.ts] is missing; [del(key)]. *)
Definition del (key : string) : M unit :=
  fun w => (Ok tt,
            record (CallCacheDel key) (with_cache (delete key (cache w)) w)).

Definition members (name : string) (w : World) : gset string :=
  default ∅ (sets w !! name).

(** Modelled from the spec: [utils/redis.ts] is missing;
    [sadd(set, member)]. *)
Definition sadd (name member : string) : M unit :=
  fun w => (Ok tt,
            record (CallCacheSadd name member)
              (with_sets (<[name := {[member]} ∪ members name w]> (sets w)) w)).

(** Modelled from the spec: [utils/redis.ts] is missing;
    [sismember(set, member) -> bool]. *)
Definition sismember (name member : string) : M bool :=
  fun w => (Ok (bool_decide (member ∈ members name w)),
            record (CallCacheSismember name member) w).

End RedisClient.

(* ===================================================================== *)
(** ** [AuthService] *)
(* ===================================================================== *)

Section AuthService.

Context `{Libraries}.

(** [bcrypt.genSalt(10)]: every salt uses up fresh randomness. *)
Definition genSalt : M N :=
  fun w => (Ok (entropy w), with_entropy (entropy w + 1)%N w).

(** [bcrypt.hash(data, 10)]: salt generated on the fly. *)
Definition bcrypt_hash_rounds (data : string) : M string :=
  let* salt := genSalt in
  ret (bcrypt_hash data salt).

(** [bcrypt.compare(data, hash)]; it throws when the hash is missing. *)
Definition bcrypt_compare_js (data : string) (hash : option string) : M bool :=
  match hash with
  | Some h => ret (bcrypt_compare data h)
  | None => throw (Error "data and hash arguments required")
  end.

(** The constructor sets [totp.options = { digits: 6, step: 300 }]. *)
Definition totp_step : Z := 300.

(** [totp.generate(secret)] at instant [t]. *)
Definition totp_generate (secret : string) (t : Z) : string :=
  hotp secret (t / totp_step).

(** [totp.check(token, secret)] at instant [t] (window 0). *)
Definition totp_check (token secret : string) (t : Z) : bool :=
  String.eqb token (totp_generate secret t).

Definition otpKey (userId : string) : string := userId +:+ ":otp".

Definition hashPassword (password : string) : M string :=
  if negb (truthy_string password)
  then throw (Error "Password is required for hashing.")
  else
    let* salt := genSalt in
    ret (bcrypt_hash password salt).

Definition comparePassword (password : string) (hashedPassword : option string)
  : M bool :=
  bcrypt_compare_js password hashedPassword.

Definition validateEmail (email : string) : M unit :=
  if negb (email_matches email)
  then throw (NotFoundException "Invalid email")
  else ret tt.

Definition signup (user : CreateUserDto.t) : M User.t :=
  let* userExists := UsersService.findByEmail (CreateUserDto.email user) in
  match userExists with
  | Some _ => throw (ConflictException "User already exists")
  | None =>
      let* hashed := hashPassword (CreateUserDto.password user) in
      let user := CreateUserDto.mk (CreateUserDto.email user) hashed in
      let* newUser := UsersService.create user in
      ret (User.set_password None newUser)
  end.

Definition getTokenOption (type : string) : JwtSignOptions :=
  mkJwtSignOptions (config_get config (type +:+ "_secret"))
                   (config_get config (type +:+ "_expiresIn")).

Definition getTokens (user : User.t) : M (string * string) :=
  let payload := mkPayload (User.id user) (User.role user) in
  let* w := get_world in
  let accessToken := jwt_sign payload (getTokenOption "access") (now w) in
  let refreshToken := jwt_sign payload (getTokenOption "refresh") (now w) in
  ret (accessToken, refreshToken).

Definition setCurrentRefreshToken (refreshToken userId : string) : M unit :=
  let* hashedRefreshToken := bcrypt_hash_rounds refreshToken in
  let updatedUser := UpdateUser.mk None (Some (Some hashedRefreshToken)) in
  do UsersService.update userId updatedUser then
  ret tt.

(** [cookie.serialize('Bearer', token, { httpOnly, secure, sameSite:
    true, maxAge: 3600, path: '/' })] *)
Definition setCookies (token : string) : string :=
  "Bearer=" +:+ encodeURIComponent token +:+ "; Max-Age=3600; Path=/; HttpOnly"
    +:+ (if String.eqb (env config) "production" then "; Secure" else EmptyString)
    +:+ "; SameSite=Strict".

Definition signin (user : User.t) : M SignIn :=
  let* ts := getTokens user in
  let cookieSerialized := setCookies (fst ts) in
  do setCurrentRefreshToken (snd ts) (User.id user) then
  ret (mkSignIn (mkTokens (fst ts) (snd ts)) cookieSerialized).

Definition revokeToken (tokenId : string) : M unit :=
  RedisClient.sadd "revokedToken" tokenId.

Definition isTokenRevoked (tokenId : string) : M bool :=
  RedisClient.sismember "revokedToken" tokenId.

(** [JSON.parse(JSON.stringify(reqUser))] followed by the destructuring
    [const { user } = ...]; an [undefined] argument does not parse. *)
Definition json_roundtrip_user (reqUser : option ReqUser) : M (option User.t) :=
  match reqUser with
  | Some r => ret (req_user r)
  | None => throw (SyntaxError "Unexpected token u in JSON at position 0")
  end.

Definition signout (reqUser : option ReqUser) (token : option string) : M bool :=
  try_catch
    (let* user := json_roundtrip_user reqUser in
     match user, token with
     | Some user, Some token =>
         if negb (truthy_string token)
         then throw (NotFoundException "User not found")
         else
           let updatedUser := UpdateUser.mk None (Some None) in
           do UsersService.update (User.id user) updatedUser then
           do revokeToken token then
           ret true
     | _, _ => throw (NotFoundException "User not found")
     end)
    (fun error => throw InternalServerErrorException).

Definition generateResetPasswordOtp : M string :=
  let* w := get_world in
  ret (totp_generate (otp_secret config) (now w)).

Definition forgotPassword (email : string) : M string :=
  do validateEmail email then
  let* user := UsersService.findByEmail (toLowerCase email) in
  match user with
  | None => throw (NotFoundException "User not found")
  | Some user =>
      let* otp := generateResetPasswordOtp in
      let otpKey := otpKey (User.id user) in
      let* present := RedisClient.exists_ otpKey in
      do (if present then RedisClient.del otpKey else ret tt) then
      do RedisClient.set otpKey otp 300 then
      ret otp
  end.

Definition verifyResetPasswordOtp (otp userId : string) : M unit :=
  let OTP_TOKEN_SECRET := otp_secret config in
  let* w := get_world in
  let isValid := totp_check otp OTP_TOKEN_SECRET (now w) in
  if negb isValid
  then throw (NotFoundException "Invalid OTP or OTP has expired")
  else
    let otpKey := otpKey userId in
    let* otpCached := RedisClient.get otpKey in
    if negb (bool_decide (otpCached = Some otp))
    then throw (NotFoundException "Invalid OTP")
    else RedisClient.del otpKey.

Definition resetPassword (email otp newPassword : string)
  : M (option User.t) :=
  do validateEmail email then
  let* user := UsersService.findByEmail (toLowerCase email) in
  match user with
  | None =>
      (* [user.id] on [null] *)
      throw (TypeError "Cannot read properties of null (reading 'id')")
  | Some user =>
      do verifyResetPasswordOtp otp (User.id user) then
      let* hashed := hashPassword newPassword in
      let updatedUser := UpdateUser.mk (Some hashed) None in
      UsersService.update (User.id user) updatedUser
  end.

Definition validateUser (email password : string) : M (option User.t) :=
  let* user := UsersService.findByEmail email in
  match user with
  | Some user =>
      let* same := comparePassword password (User.password user) in
      if same then ret (Some (User.set_password None user)) else ret None
  | None => ret None
  end.

Definition createAccessTokenFromRefreshToken (refreshToken : string)
  : M string :=
  try_catch
    (match jwt_decode refreshToken with
     | None => throw (NotFoundException "Invalid token")
     | Some decoded =>
         let* user := UsersService.findOne (sub decoded) in
         match user with
         | None => throw (NotFoundException "User not found")
         | Some user =>
             let* isRefreshTokenMatched :=
               bcrypt_compare_js refreshToken (User.refreshToken user) in
             if negb isRefreshTokenMatched
             then throw (NotFoundException "Invalid token")
             else
               let* ts := getTokens user in
               ret (fst ts)
         end
     end)
    (fun error => throw (NotFoundException "Invalid token")).

End AuthService.

(* ===================================================================== *)
(** ** A reference implementation of the libraries *)
(* ===================================================================== *)

(** Small executable stand-ins for the third-party libraries, used to run
    the service on concrete requests.  They keep what the service can
    observe of the real ones (a bcrypt digest verifies its input and reads
    no more than its first 72 bytes, a token has the compact JWT layout,
    decodes to its payload and carries its issue second, a one-time code
    depends on the secret and the time step) and none of their
    cryptography. *)
Module Reference.

Definition decimal (n : N) : string := NilZero.string_of_uint (N.to_uint n).

Fixpoint pad_left (width : nat) (s : string) : string :=
  match width with
  | O => s
  | S k => if (String.length s <? S k)%nat then "0" +:+ pad_left k s else s
  end.

(** [bcrypt] looks at the first 72 bytes of its input and ignores the
    rest. *)
Definition bcrypt_input_limit : nat := 72.

(** Salted digest: a marker, the salt, then the bytes that count. *)
Definition hash (data : string) (salt : N) : string :=
  String "$" (String (ascii_of_N (97 + salt mod 26))
                     (first_bytes bcrypt_input_limit data)).

Definition compare (data digest : string) : bool :=
  match digest with
  | String "$" (String _ rest) =>
      String.eqb (first_bytes bcrypt_input_limit data) rest
  | _ => false
  end.

(** *** Tokens in the compact JWT layout: [header.claims.signature], each
    part in unpadded base64url. *)

Definition base64url_alphabet : string :=
  "ABCDEFGHIJKLMNOPQRSTUVWXYZabcdefghijklmnopqrstuvwxyz0123456789-_".

Definition sextet_char (k : N) : ascii :=
  match String.get (N.to_nat k) base64url_alphabet with
  | Some c => c
  | None => "?"%char
  end.

Fixpoint base64url (s : string) : string :=
  match s with
  | EmptyString => EmptyString
  | String a EmptyString =>
      let n := (code a * 16)%N in
      String (sextet_char (n / 64)) (String (sextet_char (n mod 64)) EmptyString)
  | String a (String b EmptyString) =>
      let n := (code a * 1024 + code b * 4)%N in
      String (sextet_char (n / 4096))
        (String (sextet_char ((n / 64) mod 64))
           (String (sextet_char (n mod 64)) EmptyString))
  | String a (String b (String c rest)) =>
      let n := (code a * 65536 + code b * 256 + code c)%N in
      String (sextet_char (n / 262144))
        (String (sextet_char ((n / 4096) mod 64))
           (String (sextet_char ((n / 64) mod 64))
              (String (sextet_char (n mod 64)) (base64url rest))))
  end.

Fixpoint index_of (c : ascii) (s : string) : N :=
  match s with
  | EmptyString => 0
  | String c' s' => if Ascii.eqb c c' then 0 else (1 + index_of c s')%N
  end.

Definition char_sextet (c : ascii) : N := index_of c base64url_alphabet.

Definition is_dot (c : ascii) : bool := Ascii.eqb c ".".

(** Decodes one base64url part, up to the next dot or the end. *)
Fixpoint unbase64url (s : string) : string :=
  match s with
  | EmptyString => EmptyString
  | String a r1 =>
      if is_dot a then EmptyString else
      match r1 with
      | EmptyString => EmptyString
      | String b r2 =>
          if is_dot b then EmptyString else
          String (ascii_of_N ((char_sextet a * 4 + char_sextet b / 16) mod 256))
            match r2 with
            | EmptyString => EmptyString
            | String c r3 =>
                if is_dot c then EmptyString else
                String (ascii_of_N ((char_sextet b * 16 + char_sextet c / 4) mod 256))
                  match r3 with
                  | EmptyString => EmptyString
                  | String d r4 =>
                      if is_dot d then EmptyString else
                      String (ascii_of_N ((char_sextet c * 64 + char_sextet d) mod 256))
                             (unbase64url r4)
                  end
            end
      end
  end.

(** The double quote of JSON, and a JSON string (identifiers and roles
    hold no character that needs escaping). *)
Definition dq : string := String (ascii_of_N 34) EmptyString.
Definition quoted (s : string) : string := dq +:+ s +:+ dq.

Fixpoint leading_number (acc : N) (s : string) : N * string :=
  match s with
  | String c s' =>
      if is_digit c
      then leading_number (acc * 10 + (code c - 48))%N s'
      else (acc, s)
  | EmptyString => (acc, s)
  end.

(** [expiresIn] spans such as ["15m"] or ["7d"], in seconds. *)
Definition seconds_of (span : string) : Z :=
  let (n, unit_) := leading_number 0 span in
  if String.eqb unit_ "s" then Z.of_N n
  else if String.eqb unit_ "m" then 60 * Z.of_N n
  else if String.eqb unit_ "h" then 3600 * Z.of_N n
  else if String.eqb unit_ "d" then 86400 * Z.of_N n
  else 0.

(** The header of an HS256 token. *)
Definition header : string :=
  base64url ("{" +:+ quoted "alg" +:+ ":" +:+ quoted "HS256" +:+ ","
             +:+ quoted "typ" +:+ ":" +:+ quoted "JWT" +:+ "}").

(** The claims as signed: the payload of the caller, then the issue
    second and the expiry added by the signer. *)
Definition claims (p : Payload) (o : JwtSignOptions) (iat : Z) : string :=
  "{" +:+ quoted "sub" +:+ ":" +:+ quoted (sub p) +:+ ","
      +:+ quoted "role" +:+ ":" +:+ quoted (payload_role p) +:+ ","
      +:+ quoted "iat" +:+ ":" +:+ decimal (Z.to_N iat) +:+ ","
      +:+ quoted "exp" +:+ ":"
      +:+ decimal (Z.to_N (iat + seconds_of (default EmptyString (expiresIn o))))
      +:+ "}".

(** [header.claims.signature]; the signature stands in for the HMAC: a
    function of the secret and the claims. *)
Definition sign (p : Payload) (o : JwtSignOptions) (iat : Z) : string :=
  header +:+ "." +:+ base64url (claims p o iat) +:+ "."
    +:+ base64url (default EmptyString (secret o) +:+ claims p o iat).

Fixpoint strip_prefix (p s : string) : option string :=
  match p, s with
  | EmptyString, _ => Some s
  | String a p', String b s' => if Ascii.eqb a b then strip_prefix p' s' else None
  | _, EmptyString => None
  end.

(** Reads [s] up to the first [c]. *)
Fixpoint until_char (c : ascii) (s : string) : option (string * string) :=
  match s with
  | EmptyString => None
  | String c' s' =>
      if Ascii.eqb c' c then Some (EmptyString, s')
      else match until_char c s' with
           | Some (a, b) => Some (String c' a, b)
           | None => None
           end
  end.

Definition parse_claims (json : string) : option Payload :=
  match strip_prefix ("{" +:+ quoted "sub" +:+ ":" +:+ dq) json with
  | None => None
  | Some r1 =>
      match until_char (ascii_of_N 34) r1 with
      | None => None
      | Some (s, r2) =>
          match strip_prefix ("," +:+ quoted "role" +:+ ":" +:+ dq) r2 with
          | None => None
          | Some r3 =>
              match until_char (ascii_of_N 34) r3 with
              | None => None
              | Some (r, _) => Some (mkPayload s r)
              end
          end
      end
  end.

(** Reads the claims part without checking signature or expiry. *)
Definition decode (token : string) : option Payload :=
  match until_char "." token with
  | None => None
  | Some (_, rest) => parse_claims (unbase64url rest)
  end.

(** Six digits out of the secret's length and the time step. *)
Definition code6 (secret : string) (counter : Z) : string :=
  pad_left 6
    (decimal (Z.to_N ((counter * 7919 + Z.of_nat (String.length secret) * 104729)
                        mod 1000000))).

Definition libs : Libraries := {|
  config := mkConfig "access-secret" "15m" "refresh-secret" "7d"
                     "otp-secret" "development";
  bcrypt_hash := hash;
  bcrypt_compare := compare;
  jwt_sign := sign;
  jwt_decode := decode;
  hotp := code6;
  encodeURIComponent := fun s => s;
  uuid := fun n => "user-" +:+ decimal n;
  default_role := "user"
|}.

Definition alice : User.t :=
  User.mk "user-0" "alice@example.com" (Some (hash "s3cret" 7)) "user" None.

(** One registered user, an empty cache, the clock at 1000 s. *)
Definition world0 : World := mkWorld [alice] ∅ ∅ 1000 0 [].

(** Sign-up requests for a free address, with and without a password. *)
Definition bob : CreateUserDto.t := CreateUserDto.mk "bob@example.com" "hunter2".
Definition bob_no_password : CreateUserDto.t :=
  CreateUserDto.mk "bob@example.com" EmptyString.

(** The world once alice has asked for a reset code. *)
Definition world_otp : World :=
  snd (@forgotPassword libs "alice@example.com" world0).

(** The world once alice has signed in. *)
Definition world_signed_in : World := snd (@signin libs alice world0).

(** ... and once she has signed in a second time, [d] seconds later. *)
Definition world_signed_in_twice (d : Z) : World :=
  snd (@signin libs alice (elapse d world_signed_in)).

(** The refresh token the reference signer issues to alice at [t]. *)
Definition alice_refresh (t : Z) : string :=
  sign (mkPayload "user-0" "user") (mkJwtSignOptions (Some "refresh-secret") (Some "7d")) t.

(** The access token the reference signer issues to alice at [t]. *)
Definition alice_access (t : Z) : string :=
  sign (mkPayload "user-0" "user")
       (mkJwtSignOptions (Some "access-secret") (Some "15m")) t.

End Reference.

(** Further worlds for running the service. *)
Module Scenario.

Definition carol : User.t :=
  User.mk "user-1" "carol@example.com" (Some (Reference.hash "pa55" 3)) "user" None.

(** Two registered users, an empty cache, the clock at 1000 s. *)
Definition world_two : World := mkWorld [Reference.alice; carol] ∅ ∅ 1000 0 [].

(** The world once alice has signed in and then signed out with the
    access token ["tok"]. *)
Definition world_signed_out : World :=
  snd (signout (Some (mkReqUser (Some Reference.alice))) (Some "tok")
         Reference.world_signed_in).

End Scenario.

(* ===================================================================== *)
(** ** [utils.ts]: wallet identifiers *)
(* ===================================================================== *)

Module WalletId.

(** The alphabet of [generateUniqueWalletId]. *)
Definition characters : string := "0123456789ABCDEFGHJKLMNPQRSTVWXYZ".

(** [String.prototype.charAt]: the empty string when out of range. *)
Definition charAt (s : string) (i : nat) : string :=
  match String.get i s with
  | Some c => String c EmptyString
  | None => EmptyString
  end.

(** The [for] loop at counter [i], with [n] rounds to go.  [draw k] is
    the value [Math.floor(Math.random() * characters.length)] takes in
    round [k]. *)
Fixpoint loop (draw : nat -> nat) (n i : nat) (result : string) : string :=
  match n with
  | O => result
  | S n' => loop draw n' (S i) (result +:+ charAt characters (draw i))
  end.

(** [generateUniqueWalletId(length)] for an integer [length]: the loop
    runs while [i < length], not at all when [length <= 0]. *)
Definition generateUniqueWalletId (draw : nat -> nat) (length : Z) : string :=
  loop draw (Z.to_nat length) 0 EmptyString.

End WalletId.

(* ===================================================================== *)
(** ** [ClientsService] and [InvoicesService] *)
(* ===================================================================== *)

(** The [ClientProfile] entity, with the columns the services and the
    controller read or write. *)
Module ClientProfile.
Record t : Type := mk {
  id : string;
  fullName : string;
  email : string;
  phone : string;
  user : option User.t;
  createdAt : Z;
  updatedAt : Z
}.
End ClientProfile.

(** [CreateClientProfileDto] *)
Module CreateClientProfileDto.
Record t : Type := mk { fullName : string; email : string; phone : string }.
End CreateClientProfileDto.

(** What reaches a caller of the billing services: an exception of
    [@nestjs/common] already met in [AuthService] (or any other error a
    collaborator throws), or a bare [HttpException] with its status. *)
Inductive Failure : Type :=
| Nest (e : Exception)
| HttpException (msg : string) (status : Z).

Definition INTERNAL_SERVER_ERROR : Z := 500.
Definition BAD_REQUEST : Z := 400.

Inductive Outcome (A : Type) : Type :=
| Done (a : A)
| Fail (f : Failure).
Arguments Done {A} a.
Arguments Fail {A} f.

Section BillingModel.

(** [amount] is a JavaScript number that these services store and pass
    on without computing with it; [Transaction] is the entity returned by
    [TransactionsService]. *)
Variables (Amount Transaction : Type).

(** The [Invoice] entity; [userId] and [clientId] are the foreign keys
    behind the [user] and [client] relations. *)
Record Invoice : Type := mkInvoice {
  invoice_id : string;
  description : string;
  amount : Amount;
  status : string;
  paymentReference : option string;
  userId : string;
  clientId : string
}.

(** An invoice read with [relations: ['user']]. *)
Record InvoiceWithUser : Type := mkLoaded {
  invoice : Invoice;
  invoice_user : option User.t
}.

(** [CreateInvoiceDto] *)
Record CreateInvoiceDto : Type := mkCreateInvoiceDto {
  dto_description : string;
  dto_amount : Amount;
  dto_clientId : string;
  dto_status : string
}.

(** [paymentDetails.data] of [verifyPayment]. *)
Record PaymentData : Type := mkPaymentData {
  pay_status : string;
  pay_reference : string;
  pay_amount : Amount
}.

(** [paymentResponse.data] of [initiatePayment]. *)
Record InitiatedPayment : Type := mkInitiated {
  init_reference : string;
  authorization_url : string
}.

(** Calls to the services outside this file, in order. *)
Inductive Event : Type :=
| EvClientCheck (clientId userId : string)
| EvCreateTransaction (invoiceId : string) (amount : Amount) (status : string)
                      (userId clientId : string)
| EvTransactionStatus (invoiceId status : string)
| EvVerifyPayment (reference : option string)
| EvInitiatePayment (email : string) (amount : Amount)
| EvPaymentLink (reference : string)
| EvWalletBalance (userId : string) (amount : Amount).

(** The tables behind the repositories, the clock of the database and
    the calls made so far. *)
Record Store : Type := mkStore {
  st_users : list User.t;
  st_clients : list ClientProfile.t;
  st_invoices : list Invoice;
  st_clock : Z;
  st_events : list Event
}.

Definition with_clients (cs : list ClientProfile.t) (s : Store) : Store :=
  mkStore (st_users s) cs (st_invoices s) (st_clock s) (st_events s).
Definition with_invoices (xs : list Invoice) (s : Store) : Store :=
  mkStore (st_users s) (st_clients s) xs (st_clock s) (st_events s).
Definition log (e : Event) (s : Store) : Store :=
  mkStore (st_users s) (st_clients s) (st_invoices s) (st_clock s)
          (st_events s ++ [e]).

(** Service methods over the store. *)
Definition B (A : Type) : Type := Store -> Outcome A * Store.

Definition yield {A} (a : A) : B A := fun s => (Done a, s).
Definition raise {A} (f : Failure) : B A := fun s => (Fail f, s).
Definition andThen {A C} (m : B A) (k : A -> B C) : B C :=
  fun s => match m s with
           | (Done a, s') => k a s'
           | (Fail f, s') => (Fail f, s')
           end.
(** [try { body } catch (error) { handler }] *)
Definition attempt {A} (body : B A) (handler : Failure -> B A) : B A :=
  fun s => match body s with
           | (Done a, s') => (Done a, s')
           | (Fail f, s') => handler f s'
           end.

(** The services injected into [InvoicesService] whose code is outside
    this file, and the identifiers the database hands out.  What a call
    returns may depend on everything that happened before. *)
Class Remote : Type := {
  new_id : nat -> string;
  getClientByIdAndUserId : string -> string -> Store -> Outcome unit;
  createTransaction :
    string -> Amount -> string -> string -> string -> Store -> Outcome Transaction;
  updateTransactionStatus : string -> string -> Store -> Outcome unit;
  verifyPayment : option string -> Store -> Outcome PaymentData;
  initiatePayment : string -> Amount -> Store -> Outcome InitiatedPayment;
  getPaymentLinkFromReference : string -> Store -> Outcome string;
  updateWalletBalance : string -> Amount -> Store -> Outcome unit
}.

(** What [Repository.find] makes of the rows that match, when it is
    called with a [where] and nothing else: no [order] is asked for, so
    the rows come in the order the database chooses, and no [relations],
    so whether their [user] comes loaded is left to the entity. *)
Class Database : Type := {
  find_result : Store -> list ClientProfile.t -> list ClientProfile.t
}.

(** A call to a collaborator: it is recorded, then answers. *)
Definition call {A} (e : Event) (answer : Store -> Outcome A) : B A :=
  fun s => (answer s, log e s).

End BillingModel.

Arguments mkInvoice {Amount}.
Arguments invoice_id {Amount}.
Arguments description {Amount}.
Arguments amount {Amount}.
Arguments status {Amount}.
Arguments paymentReference {Amount}.
Arguments userId {Amount}.
Arguments clientId {Amount}.
Arguments mkLoaded {Amount}.
Arguments invoice {Amount}.
Arguments invoice_user {Amount}.
Arguments mkCreateInvoiceDto {Amount}.
Arguments dto_description {Amount}.
Arguments dto_amount {Amount}.
Arguments dto_clientId {Amount}.
Arguments dto_status {Amount}.
Arguments mkPaymentData {Amount}.
Arguments pay_status {Amount}.
Arguments pay_reference {Amount}.
Arguments pay_amount {Amount}.
Arguments EvClientCheck {Amount}.
Arguments EvCreateTransaction {Amount}.
Arguments EvTransactionStatus {Amount}.
Arguments EvVerifyPayment {Amount}.
Arguments EvInitiatePayment {Amount}.
Arguments EvPaymentLink {Amount}.
Arguments EvWalletBalance {Amount}.
Arguments mkStore {Amount}.
Arguments st_users {Amount}.
Arguments st_clients {Amount}.
Arguments st_invoices {Amount}.
Arguments st_clock {Amount}.
Arguments st_events {Amount}.
Arguments with_clients {Amount}.
Arguments with_invoices {Amount}.
Arguments log {Amount}.
Arguments yield {Amount A}.
Arguments raise {Amount A}.
Arguments andThen {Amount A C}.
Arguments attempt {Amount A}.
Arguments call {Amount A}.
Arguments new_id {Amount Transaction _}.
Arguments getClientByIdAndUserId {Amount Transaction _}.
Arguments createTransaction {Amount Transaction _}.
Arguments updateTransactionStatus {Amount Transaction _}.
Arguments verifyPayment {Amount Transaction _}.
Arguments initiatePayment {Amount Transaction _}.
Arguments getPaymentLinkFromReference {Amount Transaction _}.
Arguments updateWalletBalance {Amount Transaction _}.
Arguments find_result {Amount _}.

Notation "'let!' x ':=' c 'in' k" := (andThen c (fun x => k))
  (at level 10, x name, c at level 99, k at level 200).

Section BillingServices.

Context {Amount Transaction : Type} `{Remote Amount Transaction}
        `{Database Amount}.

Local Abbreviation Svc := (B Amount).

(** *** [ClientsService] *)

(** [where: [{ email: client.email }, { phone: client.phone }]]: one of
    the two matches. *)
Definition same_email_or_phone (email phone : string) (c : ClientProfile.t) : bool :=
  String.eqb (ClientProfile.email c) email
  || String.eqb (ClientProfile.phone c) phone.

(** [where: { user: { id: userId } }] *)
Definition owned_by (userId : string) (c : ClientProfile.t) : bool :=
  match ClientProfile.user c with
  | Some u => String.eqb (User.id u) userId
  | None => false
  end.

Definition client_by_id (clientId : string) (c : ClientProfile.t) : bool :=
  String.eqb (ClientProfile.id c) clientId.

(** [clientRepository.findOne({ where })] *)
Definition clientRepository_findOne (where_ : ClientProfile.t -> bool)
  : Svc (option ClientProfile.t) :=
  fun s => (Done (List.find where_ (st_clients s)), s).

(** [clientRepository.find({ where })]: the rows that match, as the
    database returns them. *)
Definition clientRepository_find (where_ : ClientProfile.t -> bool)
  : Svc (list ClientProfile.t) :=
  fun s => (Done (find_result s (List.filter where_ (st_clients s))), s).

(** [usersRepository.findOne({ where: { id } })] *)
Definition usersRepository_findOne (userId : string) : Svc (option User.t) :=
  fun s => (Done (List.find (UsersService.by_id userId) (st_users s)), s).

(** [clientRepository.save] of a profile made with [new ClientProfile()]:
    the row gets its identifier and its dates, and is returned. *)
Definition clientRepository_save
    (fullName email phone : string) (user : option User.t)
  : Svc ClientProfile.t :=
  fun s =>
    let row := ClientProfile.mk (new_id (length (st_clients s)))
                 fullName email phone user (st_clock s) (st_clock s) in
    (Done row, with_clients (st_clients s ++ [row]) s).

Definition createClientProfile (userId : string) (client : CreateClientProfileDto.t)
  : Svc ClientProfile.t :=
  let! existingClientProfile :=
    clientRepository_findOne
      (same_email_or_phone (CreateClientProfileDto.email client)
                           (CreateClientProfileDto.phone client)) in
  match existingClientProfile with
  | Some _ => raise (Nest (ConflictException "Client profile already exists"))
  | None =>
      let! user := usersRepository_findOne userId in
      clientRepository_save (CreateClientProfileDto.fullName client)
                            (CreateClientProfileDto.email client)
                            (CreateClientProfileDto.phone client) user
  end.

Definition getAllClientProfiles (userId : string) : Svc (list ClientProfile.t) :=
  clientRepository_find (owned_by userId).

Definition getClientById (clientId : string) : Svc ClientProfile.t :=
  let! client := clientRepository_findOne (client_by_id clientId) in
  match client with
  | None => raise (Nest (NotFoundException "Client not found"))
  | Some client => yield client
  end.

(** *** [InvoicesService] *)

Definition invoice_by_id (invoiceId : string) (i : Invoice Amount) : bool :=
  String.eqb (invoice_id i) invoiceId.

(** [invoiceRepository.save] of an entity made with [create]: the row
    gets its identifier and is returned. *)
Definition invoiceRepository_insert (draft : string -> Invoice Amount)
  : Svc (Invoice Amount) :=
  fun s =>
    let row := draft (new_id (length (st_invoices s))) in
    (Done row, with_invoices (st_invoices s ++ [row]) s).

Definition overwrite (row i : Invoice Amount) : Invoice Amount :=
  if invoice_by_id (invoice_id row) i then row else i.

(** [invoiceRepository.save] of an entity that was read before: its row
    is overwritten. *)
Definition invoiceRepository_save (row : Invoice Amount) : Svc (Invoice Amount) :=
  fun s => (Done row, with_invoices (List.map (overwrite row) (st_invoices s)) s).

(** [invoiceRepository.findOne({ where: { id }, relations: ['user'] })] *)
Definition invoiceRepository_findOne (invoiceId : string)
  : Svc (option (InvoiceWithUser Amount)) :=
  fun s =>
    (Done
       (option_map
          (fun i => mkLoaded i (List.find (UsersService.by_id (userId i)) (st_users s)))
          (List.find (invoice_by_id invoiceId) (st_invoices s))),
     s).

Definition createInvoice
    (createInvoiceDto : CreateInvoiceDto Amount) (userId clientId : string)
  : Svc (Invoice Amount * Transaction) :=
  attempt
    (let! _ := call (EvClientCheck clientId userId)
                 (getClientByIdAndUserId clientId userId) in
     let! savedInvoice :=
       invoiceRepository_insert
         (fun id => mkInvoice id (dto_description createInvoiceDto)
                      (dto_amount createInvoiceDto) "unpaid" None userId clientId) in
     let! transaction :=
       call (EvCreateTransaction (invoice_id savedInvoice) (amount savedInvoice)
               "pending" userId clientId)
         (createTransaction (invoice_id savedInvoice) (amount savedInvoice)
            "pending" userId clientId) in
     yield (savedInvoice, transaction))
    (fun error => raise (HttpException "Failed to create invoice"
                           INTERNAL_SERVER_ERROR)).

Definition getInvoiceDetails (invoiceId : string) : Svc (InvoiceWithUser Amount) :=
  let! invoice := invoiceRepository_findOne invoiceId in
  match invoice with
  | None => raise (Nest (NotFoundException "Invoice not found"))
  | Some invoice => yield invoice
  end.

(** [invoice.user.id] and [invoice.user.email] need the relation. *)
Definition the_user (loaded : InvoiceWithUser Amount) (field : string) : Svc User.t :=
  match invoice_user loaded with
  | Some u => yield u
  | None =>
      raise (Nest (TypeError ("Cannot read properties of null (reading '"
                              +:+ field +:+ "')")))
  end.

Definition markInvoiceAsPaid (invoiceId : string) : Svc (Invoice Amount) :=
  let! loaded := getInvoiceDetails invoiceId in
  let! paymentDetails :=
    call (EvVerifyPayment (paymentReference (invoice loaded)))
      (verifyPayment (paymentReference (invoice loaded))) in
  if String.eqb (pay_status paymentDetails) "success"
  then
    let reference := pay_reference paymentDetails in
    let amount := pay_amount paymentDetails in
    let paid :=
      mkInvoice (invoice_id (invoice loaded)) (description (invoice loaded))
        amount "paid" (Some reference)
        (userId (invoice loaded)) (clientId (invoice loaded)) in
    let! updatedInvoice := invoiceRepository_save paid in
    let! _ := call (EvTransactionStatus invoiceId "success")
                (updateTransactionStatus invoiceId "success") in
    let! user := the_user loaded "id" in
    let! _ := call (EvWalletBalance (User.id user) amount)
                (updateWalletBalance (User.id user) amount) in
    yield updatedInvoice
  else raise (HttpException "Payment verification failed" BAD_REQUEST).

Definition generatePaystackLink (invoiceId : string) : Svc string :=
  let! loaded := getInvoiceDetails invoiceId in
  if truthy_opt_string (paymentReference (invoice loaded))
  then
    let reference := default EmptyString (paymentReference (invoice loaded)) in
    call (EvPaymentLink reference) (getPaymentLinkFromReference reference)
  else
    attempt
      (let! user := the_user loaded "email" in
       let! paymentResponse :=
         call (EvInitiatePayment (User.email user) (amount (invoice loaded)))
           (initiatePayment (User.email user) (amount (invoice loaded))) in
       let referenced :=
         mkInvoice (invoice_id (invoice loaded)) (description (invoice loaded))
           (amount (invoice loaded)) (status (invoice loaded))
           (Some (init_reference paymentResponse))
           (userId (invoice loaded)) (clientId (invoice loaded)) in
       let! _ := invoiceRepository_save referenced in
       yield (authorization_url paymentResponse))
      (fun error => raise (HttpException "Error generating Paystack link"
                             INTERNAL_SERVER_ERROR)).

(** *** [ClientsController] *)

(** The object the controller makes of a profile: the [user] relation is
    left out. *)
Record ClientProfileView : Type := mkView {
  view_id : string;
  view_fullName : string;
  view_email : string;
  view_phone : string;
  view_createdAt : Z;
  view_updatedAt : Z
}.

Definition to_view (profile : ClientProfile.t) : ClientProfileView :=
  mkView (ClientProfile.id profile) (ClientProfile.fullName profile)
         (ClientProfile.email profile) (ClientProfile.phone profile)
         (ClientProfile.createdAt profile) (ClientProfile.updatedAt profile).

(** [GET /clients] for the authenticated [userId]. *)
Definition controller_getAllClientProfiles (userId : string)
  : Svc (list ClientProfileView) :=
  let! clientProfiles := getAllClientProfiles userId in
  yield (List.map to_view clientProfiles).

End BillingServices.

(** A small executable stand-in for the outside services, to run the
    billing services on concrete requests: the payment provider declines
    the reference ["ref-declined"] and approves every other one for 5000,
    transactions cannot be opened for the client ["client-closed"] nor
    updated for the invoice ["id-2"], the client ["client-unknown"] does
    not exist. *)
Module BillingReference.

Definition remote : Remote Z string := {|
  new_id := fun n => "id-" +:+ Reference.decimal (N.of_nat n);
  getClientByIdAndUserId := fun clientId _ _ =>
    if String.eqb clientId "client-unknown"
    then Fail (Nest (NotFoundException "Client not found"))
    else Done tt;
  createTransaction := fun invoiceId _ _ _ clientId _ =>
    if String.eqb clientId "client-closed"
    then Fail (Nest (Error "transaction refused"))
    else Done ("tx-" +:+ invoiceId);
  updateTransactionStatus := fun invoiceId _ _ =>
    if String.eqb invoiceId "id-2"
    then Fail (Nest (Error "transaction locked"))
    else Done tt;
  verifyPayment := fun reference _ =>
    match reference with
    | None => Fail (Nest (Error "no reference"))
    | Some r =>
        if String.eqb r "ref-declined"
        then Done (mkPaymentData "failed" r 0)
        else Done (mkPaymentData "success" r 5000)
    end;
  initiatePayment := fun _ _ _ =>
    Done (mkInitiated "ref-1" "https://checkout.example/ref-1");
  getPaymentLinkFromReference := fun r _ =>
    Done ("https://checkout.example/" +:+ r);
  updateWalletBalance := fun _ _ _ => Done tt
|}.

(** A database that lists the newest row first and leaves the [user]
    relation of the rows it lists unloaded. *)
Definition unloaded (c : ClientProfile.t) : ClientProfile.t :=
  ClientProfile.mk (ClientProfile.id c) (ClientProfile.fullName c)
                   (ClientProfile.email c) (ClientProfile.phone c) None
                   (ClientProfile.createdAt c) (ClientProfile.updatedAt c).

Definition database : Database Z := {|
  find_result := fun _ rows => List.map unloaded (List.rev rows)
|}.

Definition acme : ClientProfile.t :=
  ClientProfile.mk "id-0" "Acme Ltd" "billing@acme.example" "+2340000001"
                   (Some Reference.alice) 900 900.

(** Invoices of alice: one not yet sent to the provider, one whose
    payment was declined, one whose transaction is locked. *)
Definition invoice0 : Invoice Z :=
  mkInvoice "id-0" "Design work" 4800 "unpaid" None "user-0" "id-0".
Definition invoice1 : Invoice Z :=
  mkInvoice "id-1" "Hosting" 1200 "unpaid" (Some "ref-declined") "user-0" "id-0".
Definition invoice2 : Invoice Z :=
  mkInvoice "id-2" "Support" 700 "unpaid" (Some "ref-2") "user-0" "id-0".
Definition invoice3 : Invoice Z :=
  mkInvoice "id-3" "Audit" 5000 "unpaid" (Some "ref-3") "user-0" "id-0".

(** An invoice whose user is not in the users table. *)
Definition invoice4 : Invoice Z :=
  mkInvoice "id-4" "Travel" 300 "unpaid" None "user-9" "id-0".

Definition store0 : Store Z :=
  mkStore [Reference.alice] [acme]
          [invoice0; invoice1; invoice2; invoice3; invoice4] 1000 [].

(** A provider that reports every payment as successful, for 5000 under
    the reference ["ref-ok"]. *)
Definition approving : Remote Z string := {|
  new_id := new_id (Remote := remote);
  getClientByIdAndUserId := getClientByIdAndUserId (Remote := remote);
  createTransaction := createTransaction (Remote := remote);
  updateTransactionStatus := fun _ _ _ => Done tt;
  verifyPayment := fun _ _ => Done (mkPaymentData "success" "ref-ok" 5000);
  initiatePayment := initiatePayment (Remote := remote);
  getPaymentLinkFromReference := getPaymentLinkFromReference (Remote := remote);
  updateWalletBalance := fun _ _ _ => Done tt
|}.

Definition new_client : CreateClientProfileDto.t :=
  CreateClientProfileDto.mk "Globex" "ap@globex.example" "+2340000002".

End BillingReference.

(* ===================================================================== *)
(** ** Vocabulary of the properties *)
(* ===================================================================== *)

(** The caller observes a NotFound error. *)
Definition rejected_NotFound {A} (r : Result A) : bool :=
  match r with
  | Throw (NotFoundException _) => true
  | _ => false
  end.

(** The call returned normally. *)
Definition succeeded {A} (r : Result A) : bool :=
  match r with Ok _ => true | Throw _ => false end.

(** Every character of [s] satisfies [p]. *)
Fixpoint all_chars (p : ascii -> bool) (s : string) : bool :=
  match s with
  | EmptyString => true
  | String c s' => p c && all_chars p s'
  end.

(** The billing call returned normally. *)
Definition succeeded_billing {A} (r : Outcome A) : bool :=
  match r with Done _ => true | Fail _ => false end.

(** No two client profiles share an e-mail address or a phone number. *)
Definition unique_contacts (cs : list ClientProfile.t) : Prop :=
  NoDup (List.map ClientProfile.email cs)
  /\ NoDup (List.map ClientProfile.phone cs).

(** The shape an address must have to pass [validateEmail]:
    [local@domain.tld], the local part and the domain non-empty and over
    their character sets, the top-level domain two to four lowercase
    letters. *)
Definition email_shape (email : string) : Prop :=
  exists loc dom tld : string,
    email = loc +:+ "@" +:+ dom +:+ "." +:+ tld
    /\ loc <> EmptyString /\ all_chars local_char loc = true
    /\ dom <> EmptyString /\ all_chars domain_char dom = true
    /\ all_chars is_lower tld = true
    /\ (2 <= String.length tld <= 4)%nat.

(* ===================================================================== *)
(** ** Facts about the regular-expression matcher *)
(* ===================================================================== *)

Module RegexFacts.
Import Regex.

Lemma dead_not_nullable r : dead r = true -> nullable r = false.
Proof.
  induction r as [| |p|r1 IH1 r2 IH2|r1 IH1 r2 IH2|r1 IH1]; simpl; try discriminate; auto.
  - intros [D|D]%orb_true_iff; [rewrite (IH1 D)|rewrite (IH2 D)]; auto using andb_false_r.
  - intros [D1 D2]%andb_true_iff. now rewrite IH1, IH2.
Qed.

Lemma dead_deriv a r : dead r = true -> dead (deriv a r) = true.
Proof.
  induction r as [| |p|r1 IH1 r2 IH2|r1 IH1 r2 IH2|r1 IH1]; simpl; try discriminate; auto.
  - intros [D|D]%orb_true_iff.
    + rewrite (dead_not_nullable _ D). simpl. now rewrite IH1.
    + destruct (nullable r1); simpl; rewrite ?D, ?IH2, ?orb_true_r; auto.
  - intros [D1 D2]%andb_true_iff. now rewrite IH1, IH2.
Qed.

Lemma dead_no_match s : forall r, dead r = true -> matches r s = false.
Proof.
  induction s as [|a s IH]; intros r D; simpl.
  - now apply dead_not_nullable.
  - apply IH. now apply dead_deriv.
Qed.

Lemma append_empty (s1 s2 : string) :
  s1 +:+ s2 = EmptyString -> s1 = EmptyString /\ s2 = EmptyString.
Proof. destruct s1; simpl; [auto|discriminate]. Qed.

Lemma lang_empty_nullable r s : lang r s -> s = EmptyString -> nullable r = true.
Proof.
  induction 1 as [|p c Hp|r1 r2 s1 s2 _ IH1 _ IH2|r1 r2 s _ IH|r1 r2 s _ IH
                 |r|r s1 s2 _ _ _ _]; intros E; simpl; auto.
  - discriminate.
  - apply append_empty in E as [E1 E2]. now rewrite IH1, IH2.
  - now rewrite IH.
  - rewrite IH by assumption. apply orb_true_r.
Qed.

Lemma nullable_lang r : nullable r = true -> lang r EmptyString.
Proof.
  induction r as [| |p|r1 IH1 r2 IH2|r1 IH1 r2 IH2|r1 IH1]; simpl;
    try discriminate.
  - intros _. constructor.
  - intros [N1 N2]%andb_true_iff.
    change EmptyString with (EmptyString +:+ EmptyString). constructor; auto.
  - intros [N|N]%orb_true_iff; [apply lang_Alt_l|apply lang_Alt_r]; auto.
  - intros _. constructor.
Qed.

(** Soundness of the derivative. *)
Lemma deriv_sound a r : forall s, lang (deriv a r) s -> lang r (String a s).
Proof.
  induction r as [| |p|r1 IH1 r2 IH2|r1 IH1 r2 IH2|r1 IH1]; simpl; intros s L.
  - inversion L.
  - inversion L.
  - destruct (p a) eqn:P; inversion L; subst. now constructor.
  - destruct (nullable r1) eqn:N.
    + inversion L as [| | | ? ? ? L1 | ? ? ? L2 | |]; subst.
      * inversion L1 as [| |? ? s1 s2 La Lb| | | |]; subst.
        change (String a (s1 +:+ s2)) with (String a s1 +:+ s2).
        constructor; auto.
      * change (String a s) with (EmptyString +:+ String a s).
        constructor; auto using nullable_lang.
    + inversion L as [| |? ? s1 s2 La Lb| | | |]; subst.
      change (String a (s1 +:+ s2)) with (String a s1 +:+ s2).
      constructor; auto.
  - inversion L; subst; [apply lang_Alt_l|apply lang_Alt_r]; auto.
  - inversion L as [| |? ? s1 s2 La Lb| | | |]; subst.
    change (String a (s1 +:+ s2)) with (String a s1 +:+ s2).
    constructor; auto.
Qed.

(** Completeness of the derivative. *)
Lemma deriv_complete r s' :
  lang r s' -> forall a s, s' = String a s -> lang (deriv a r) s.
Proof.
  induction 1 as [|p c Hp|r1 r2 s1 s2 L1 IH1 L2 IH2|r1 r2 s0 _ IH|r1 r2 s0 _ IH
                 |r|r s1 s2 L1 IH1 L2 IH2]; intros a s E; simpl.
  - discriminate.
  - injection E as -> <-. rewrite Hp. constructor.
  - destruct s1 as [|c s1]; simpl in E.
    + rewrite (lang_empty_nullable _ _ L1 eq_refl).
      apply lang_Alt_r. now apply IH2.
    + injection E as -> <-.
      destruct (nullable r1); [apply lang_Alt_l|]; constructor; auto.
  - apply lang_Alt_l. now apply IH.
  - apply lang_Alt_r. now apply IH.
  - discriminate.
  - destruct s1 as [|c s1]; simpl in E.
    + now apply IH2.
    + injection E as -> <-. constructor; auto.
Qed.

(** The matcher decides the language. *)
Theorem matches_lang s : forall r, matches r s = true <-> lang r s.
Proof.
  induction s as [|a s IH]; intros r; simpl.
  - split; [apply nullable_lang|intros L; now apply (lang_empty_nullable r _ L)].
  - rewrite IH. split.
    + apply deriv_sound.
    + intros L. now apply (deriv_complete _ _ L).
Qed.

(** Reading a character the expression cannot contain kills it. *)
Lemma deriv_foreign a r : admits r a = false -> dead (deriv a r) = true.
Proof.
  induction r as [| |p|r1 IH1 r2 IH2|r1 IH1 r2 IH2|r1 IH1]; simpl; auto.
  - now intros ->.
  - intros [A1 A2]%orb_false_iff.
    destruct (nullable r1); simpl; rewrite ?IH1, ?IH2; auto.
  - intros [A1 A2]%orb_false_iff. now rewrite IH1, IH2.
  - intros A. now rewrite IH1.
Qed.

(** Derivatives never widen the alphabet. *)
Lemma admits_deriv a c r : admits r c = false -> admits (deriv a r) c = false.
Proof.
  induction r as [| |p|r1 IH1 r2 IH2|r1 IH1 r2 IH2|r1 IH1]; simpl; auto.
  - intros _. now destruct (p a).
  - intros [A1 A2]%orb_false_iff.
    destruct (nullable r1); simpl; rewrite ?IH1, ?IH2, ?A2; auto.
  - intros [A1 A2]%orb_false_iff. now rewrite IH1, IH2.
  - intros A. now rewrite IH1, A.
Qed.

(** A string holding a character foreign to [r] does not match [r]. *)
Lemma foreign_char_no_match (p : ascii -> bool) s :
  forall r, (forall c, p c = true -> admits r c = false) ->
            has_char p s = true -> matches r s = false.
Proof.
  induction s as [|a s IH]; intros r Hp; simpl; [discriminate|].
  intros [Ha|Hs]%orb_true_iff.
  - apply dead_no_match, deriv_foreign, Hp, Ha.
  - apply IH; auto. intros c Hc. apply admits_deriv, Hp, Hc.
Qed.

End RegexFacts.

Lemma upper_not_in_emailRegex c :
  is_upper c = true -> Regex.admits emailRegex c = false.
Proof.
  destruct c as [b0 b1 b2 b3 b4 b5 b6 b7].
  destruct b0, b1, b2, b3, b4, b5, b6, b7;
    vm_compute; intros E; solve [reflexivity | discriminate E].
Qed.

(** An uppercase letter anywhere makes [email.match(emailRegex)] null. *)
Lemma uppercase_email_no_match email :
  has_char is_upper email = true -> email_matches email = false.
Proof.
  apply RegexFacts.foreign_char_no_match. exact upper_not_in_emailRegex.
Qed.

(* ===================================================================== *)
(** ** Facts about the credential store *)
(* ===================================================================== *)

Module StoreFacts.
Import UsersService.

Lemma patch_id p u : User.id (patch p u) = User.id u.
Proof. unfold patch. now destruct (UpdateUser.password p), (UpdateUser.refreshToken p). Qed.

Lemma patch_email p u : User.email (patch p u) = User.email u.
Proof. unfold patch. now destruct (UpdateUser.password p), (UpdateUser.refreshToken p). Qed.

Lemma patch_at_id i p u : User.id (patch_at i p u) = User.id u.
Proof. unfold patch_at. destruct (by_id i u); auto using patch_id. Qed.

Lemma patch_at_email i p u : User.email (patch_at i p u) = User.email u.
Proof. unfold patch_at. destruct (by_id i u); auto using patch_email. Qed.

(** Searching commutes with a field-preserving rewrite of the rows. *)
Lemma find_map_stable (f : User.t -> User.t) (q : User.t -> bool) us :
  (forall u, q (f u) = q u) ->
  List.find q (List.map f us) = option_map f (List.find q us).
Proof.
  intros Hq. induction us as [|u us IH]; simpl; [reflexivity|].
  rewrite Hq. now destruct (q u).
Qed.

Lemma find_by_id_update i p j us :
  List.find (by_id j) (List.map (patch_at i p) us)
  = option_map (patch_at i p) (List.find (by_id j) us).
Proof. apply find_map_stable. intros u. unfold by_id. now rewrite patch_at_id. Qed.

Lemma find_by_email_update i p e us :
  List.find (by_email e) (List.map (patch_at i p) us)
  = option_map (patch_at i p) (List.find (by_email e) us).
Proof. apply find_map_stable. intros u. unfold by_email. now rewrite patch_at_email. Qed.

Lemma find_by_id_sound i us u :
  List.find (by_id i) us = Some u -> User.id u = i.
Proof.
  intros [_ E]%List.find_some. now apply String.eqb_eq.
Qed.

Lemma find_app_none (q : User.t -> bool) us vs :
  List.find q us = None -> List.find q (us ++ vs) = List.find q vs.
Proof.
  induction us as [|u us IH]; simpl; [reflexivity|].
  destruct (q u); [discriminate|exact IH].
Qed.

Lemma patch_at_same p u : patch_at (User.id u) p u = patch p u.
Proof. unfold patch_at, by_id. now rewrite String.eqb_refl. Qed.

(** A user found by e-mail is also reachable through its id. *)
Lemma found_by_email_has_id e us u :
  List.find (by_email e) us = Some u ->
  exists u0, List.find (by_id (User.id u)) us = Some u0.
Proof.
  intros [Hin _]%List.find_some.
  destruct (List.find (by_id (User.id u)) us) as [u0|] eqn:E; [eauto|].
  exfalso. apply (List.find_none _ _ E) in Hin.
  unfold by_id in Hin. now rewrite String.eqb_refl in Hin.
Qed.

End StoreFacts.

Module StringFacts.

Lemma length_append (s t : string) :
  String.length (s +:+ t) = (String.length s + String.length t)%nat.
Proof. induction s as [|c s IH]; simpl; [reflexivity|now rewrite IH]. Qed.

(** A common suffix can be cancelled. *)
Lemma append_suffix_inj (t s s' : string) : s +:+ t = s' +:+ t -> s = s'.
Proof.
  revert s'. induction s as [|c s IH]; intros [|c' s'] E; simpl in E.
  - reflexivity.
  - apply (f_equal String.length) in E.
    rewrite !length_append in E. simpl in E. lia.
  - apply (f_equal String.length) in E.
    rewrite !length_append in E. simpl in E. lia.
  - injection E as -> E. f_equal. now apply IH.
Qed.

End StringFacts.

(** Distinct users have distinct OTP keys. *)
Lemma otpKey_inj (a b : string) : otpKey a = otpKey b -> a = b.
Proof. apply StringFacts.append_suffix_inj. Qed.

(** Recording a call does not change what the cache answers. *)
Lemma read_record k c w : RedisClient.read k (record c w) = RedisClient.read k w.
Proof. reflexivity. Qed.


(* ===================================================================== *)
(** ** Properties of the service *)
(* ===================================================================== *)

(** Unfolds the monad so that a method applied to a world computes. *)
Ltac run :=
  unfold bind, ret, throw, try_catch, get_world; simpl.

Section EmailGate.

Context `{Libraries}.

Lemma validateEmail_rejects email w :
  email_matches email = false ->
  validateEmail email w = (Throw (NotFoundException "Invalid email"), w).
Proof. intros E. unfold validateEmail. now rewrite E. Qed.

Lemma validateEmail_accepts email w :
  email_matches email = true -> validateEmail email w = (Ok tt, w).
Proof. intros E. unfold validateEmail. now rewrite E. Qed.

(** C7: a malformed e-mail makes [forgotPassword] throw "Invalid email"
    with the world exactly as it was: no [findByEmail], no cache
    operation has been recorded. *)
Theorem forgotPassword_malformed_email_no_lookup (email : string) (w : World) :
  email_matches email = false ->
  forgotPassword email w = (Throw (NotFoundException "Invalid email"), w).
Proof.
  intros E. unfold forgotPassword, bind.
  now rewrite (validateEmail_rejects _ _ E).
Qed.

Lemma resetPassword_malformed_email (email otp newPassword : string) (w : World) :
  email_matches email = false ->
  resetPassword email otp newPassword w
  = (Throw (NotFoundException "Invalid email"), w).
Proof.
  intros E. unfold resetPassword, bind.
  now rewrite (validateEmail_rejects _ _ E).
Qed.

(** C10: an e-mail with an uppercase letter is refused by both
    [forgotPassword] and [resetPassword] with NotFound "Invalid email"
    and an untouched world, whatever the store holds: validation reads
    the raw string, lowercasing only feeds the lookup that is never
    reached. *)
Theorem uppercase_email_rejected_before_lookup
    (email otp newPassword : string) (w : World) :
  has_char is_upper email = true ->
  forgotPassword email w = (Throw (NotFoundException "Invalid email"), w)
  /\ resetPassword email otp newPassword w
     = (Throw (NotFoundException "Invalid email"), w).
Proof.
  intros U. apply uppercase_email_no_match in U.
  unfold forgotPassword, resetPassword, bind.
  now rewrite (validateEmail_rejects _ _ U).
Qed.

(** C3: for a well-formed e-mail without a record, [resetPassword] dies
    on [user.id] with a TypeError right after the lookup, where the
    sibling [forgotPassword] reports NotFound "User not found". *)
Theorem resetPassword_unknown_user_TypeError
    (email otp newPassword : string) (w : World) :
  email_matches email = true ->
  List.find (UsersService.by_email (toLowerCase email)) (users w) = None ->
  resetPassword email otp newPassword w
  = (Throw (TypeError "Cannot read properties of null (reading 'id')"),
     record (CallFindByEmail (toLowerCase email)) w)
  /\ forgotPassword email w
     = (Throw (NotFoundException "User not found"),
        record (CallFindByEmail (toLowerCase email)) w).
Proof.
  intros E F. unfold resetPassword, forgotPassword, bind.
  rewrite (validateEmail_accepts _ _ E).
  unfold UsersService.findByEmail. now rewrite F.
Qed.

End EmailGate.

Section SignOut.

(** The outcome of [signout] is [true] or an internal error, never
    anything else. *)
Lemma signout_outcomes (reqUser : option ReqUser) (token : option string) (w : World) :
  fst (signout reqUser token w) = Ok true
  \/ fst (signout reqUser token w) = Throw InternalServerErrorException.
Proof.
  unfold signout. run.
  destruct reqUser as [[[u|]]|]; simpl; auto.
  destruct token as [[|c t]|]; simpl; auto.
Qed.

(** C2: with the user or the token missing, the NotFound raised inside
    the [try] is swallowed by the [catch]: the caller gets an
    InternalServerError and the world is untouched. *)
Theorem signout_missing_argument_internal_error
    (reqUser : option ReqUser) (token : option string) (w : World) :
  signout (Some (mkReqUser None)) token w = (Throw InternalServerErrorException, w)
  /\ signout None token w = (Throw InternalServerErrorException, w)
  /\ signout reqUser None w = (Throw InternalServerErrorException, w)
  /\ signout reqUser (Some EmptyString) w = (Throw InternalServerErrorException, w).
Proof.
  unfold signout. run. repeat split.
  - now destruct reqUser as [[[u|]]|].
  - now destruct reqUser as [[[u|]]|].
Qed.

End SignOut.

(** C7, run: ["not-an-email"] against the reference world. *)
Lemma forgotPassword_malformed_email_witness :
  @forgotPassword Reference.libs "not-an-email" Reference.world0
  = (Throw (NotFoundException "Invalid email"), Reference.world0).
Proof.
  apply (@forgotPassword_malformed_email_no_lookup Reference.libs).
  reflexivity.
Defined.

(** C10, run: alice is stored under the lowercased address, and the
    capitalised one is still refused before the lookup. *)
Lemma uppercase_email_witness :
  List.find (UsersService.by_email (toLowerCase "Alice@Example.com"))
            (users Reference.world0) = Some Reference.alice
  /\ @forgotPassword Reference.libs "Alice@Example.com" Reference.world0
     = (Throw (NotFoundException "Invalid email"), Reference.world0)
  /\ @resetPassword Reference.libs "Alice@Example.com" "071047" "n3w"
       Reference.world0
     = (Throw (NotFoundException "Invalid email"), Reference.world0).
Proof.
  split; [reflexivity|].
  apply (@uppercase_email_rejected_before_lookup Reference.libs).
  reflexivity.
Defined.

(** C3, run: nobody@example.com has no record. *)
Lemma resetPassword_unknown_user_witness :
  @resetPassword Reference.libs "nobody@example.com" "071047" "n3w"
    Reference.world0
  = (Throw (TypeError "Cannot read properties of null (reading 'id')"),
     record (CallFindByEmail "nobody@example.com") Reference.world0).
Proof.
  apply (@resetPassword_unknown_user_TypeError Reference.libs
           "nobody@example.com" "071047" "n3w" Reference.world0);
    reflexivity.
Defined.

Section SignUp.

Context `{Libraries}.
Import UsersService.

(** [signup] hands out users without a password field. *)
Lemma signup_scrubs_password (dto : CreateUserDto.t) (w : World) (u : User.t) :
  fst (signup dto w) = Ok u -> User.password u = None.
Proof.
  unfold signup, findByEmail, hashPassword. run.
  destruct (List.find _ (users w)); simpl; [discriminate|].
  destruct (truthy_string (CreateUserDto.password dto)); simpl; [|discriminate].
  now intros [= <-].
Qed.

(** So does [validateUser]. *)
Lemma validateUser_scrubs_password (email password : string) (w : World) (u : User.t) :
  fst (validateUser email password w) = Ok (Some u) -> User.password u = None.
Proof.
  unfold validateUser, findByEmail, comparePassword, bcrypt_compare_js. run.
  destruct (List.find _ (users w)) as [u0|]; simpl; [|discriminate].
  destruct (User.password u0) as [h|]; simpl; [|discriminate].
  destruct (bcrypt_compare password h); simpl; [|discriminate].
  now intros [= <-].
Qed.

(** C5: when the e-mail is taken, [signup] throws Conflict right after
    the lookup and the store is as before; when it is free and the
    password is not empty, [signup] appends one record whose password is
    the bcrypt hash of the given one under a new salt, and returns that
    record with the password field removed. *)
Theorem signup_conflict_or_created (dto : CreateUserDto.t) (w : World) :
  let email := CreateUserDto.email dto in
  let plain := CreateUserDto.password dto in
  let out := signup dto w in
  (is_Some (List.find (by_email email) (users w)) ->
   out = (Throw (ConflictException "User already exists"),
          record (CallFindByEmail email) w))
  /\ (List.find (by_email email) (users w) = None ->
      truthy_string plain = true ->
      let stored :=
        User.mk (uuid (N.of_nat (length (users w)))) email
                (Some (bcrypt_hash plain (entropy w))) default_role None in
      fst out = Ok (User.set_password None stored)
      /\ users (snd out) = (users w ++ [stored])%list
      /\ List.find (by_email email) (users (snd out)) = Some stored).
Proof.
  cbv zeta. unfold signup, findByEmail, hashPassword. run. split.
  - intros [u0 ->]. reflexivity.
  - intros F ->. rewrite F. simpl. repeat split.
    rewrite (StoreFacts.find_app_none _ _ _ F). simpl.
    unfold by_email; simpl. now rewrite String.eqb_refl.
Qed.

End SignUp.

Section PasswordResetSteps.

Context `{Libraries}.
Import UsersService.

(** The three ways out of [verifyResetPasswordOtp]. *)
Lemma verifyResetPasswordOtp_cases (otp userId : string) (w : World) :
  let k := otpKey userId in
  verifyResetPasswordOtp otp userId w =
  if negb (totp_check otp (otp_secret config) (now w))
  then (Throw (NotFoundException "Invalid OTP or OTP has expired"), w)
  else if negb (bool_decide (RedisClient.read k w = Some otp))
  then (Throw (NotFoundException "Invalid OTP"), record (CallCacheGet k) w)
  else (Ok tt,
        record (CallCacheDel k)
          (with_cache (delete k (cache w)) (record (CallCacheGet k) w))).
Proof.
  unfold verifyResetPasswordOtp. run.
  destruct (totp_check otp (otp_secret config) (now w)); simpl; [|reflexivity].
  now destruct (bool_decide (RedisClient.read (otpKey userId) w = Some otp)).
Qed.

Lemma read_absent k w : cache w !! k = None -> RedisClient.read k w = None.
Proof. unfold RedisClient.read. now intros ->. Qed.

(** Without a cached code for the user, no code is accepted. *)
Lemma resetPassword_rejects_without_cache
    (email otp newPassword : string) (w : World) (user : User.t) :
  email_matches email = true ->
  List.find (by_email (toLowerCase email)) (users w) = Some user ->
  cache w !! otpKey (User.id user) = None ->
  rejected_NotFound (fst (resetPassword email otp newPassword w)) = true.
Proof.
  intros E F C. unfold resetPassword, bind.
  rewrite (validateEmail_accepts _ _ E).
  unfold findByEmail. rewrite F.
  rewrite verifyResetPasswordOtp_cases. simpl.
  destruct (totp_check otp (otp_secret config) (now w)); simpl; [|reflexivity].
  rewrite read_record, (read_absent _ _ C).
  rewrite bool_decide_eq_false_2 by discriminate. reflexivity.
Qed.

(** With both checks passed and a password to hash, the reset goes
    through. *)
Lemma resetPassword_accepts
    (email otp newPassword : string) (w : World) (user : User.t) :
  email_matches email = true ->
  List.find (by_email (toLowerCase email)) (users w) = Some user ->
  totp_check otp (otp_secret config) (now w) = true ->
  RedisClient.read (otpKey (User.id user)) w = Some otp ->
  truthy_string newPassword = true ->
  succeeded (fst (resetPassword email otp newPassword w)) = true.
Proof.
  intros E F W C T. unfold resetPassword, bind.
  rewrite (validateEmail_accepts _ _ E).
  unfold findByEmail. rewrite F.
  rewrite verifyResetPasswordOtp_cases. cbv zeta.
  rewrite read_record. change (now (record _ w)) with (now w).
  rewrite W, C, bool_decide_eq_true_2 by reflexivity. simpl.
  unfold hashPassword. rewrite T. reflexivity.
Qed.

End PasswordResetSteps.

Section PasswordReset.

Context `{Libraries}.
Import UsersService.

Variables (email : string) (w : World) (user : User.t).
Hypothesis email_ok : email_matches email = true.
Hypothesis user_found :
  List.find (by_email (toLowerCase email)) (users w) = Some user.

Let key : string := otpKey (User.id user).

(** What [forgotPassword] does once the user is found. *)
Lemma forgotPassword_found :
  forgotPassword email w =
  let otp := totp_generate (otp_secret config) (now w) in
  let w1 := record (CallCacheExists key)
              (record (CallFindByEmail (toLowerCase email)) w) in
  let w2 := if bool_decide (is_Some (RedisClient.read key w))
            then record (CallCacheDel key) (with_cache (delete key (cache w)) w1)
            else w1 in
  (Ok otp,
   record (CallCacheSet key otp 300)
     (with_cache (<[key := mkEntry otp (now w + 300)]> (cache w2)) w2)).
Proof.
  unfold forgotPassword, bind.
  rewrite (validateEmail_accepts _ _ email_ok).
  unfold findByEmail. rewrite user_found.
  unfold generateResetPasswordOtp, RedisClient.exists_. run.
  fold key. rewrite !read_record.
  now destruct (bool_decide (is_Some (RedisClient.read key w))).
Qed.

(** The fresh entry is live: it expires 300 seconds from now. *)
Lemma read_fresh_entry (k v : string) (c : gmap string CacheEntry) (w0 : World) :
  now w0 = now w ->
  RedisClient.read k (with_cache (<[k := mkEntry v (now w + 300)]> c) w0) = Some v.
Proof.
  intros E. unfold RedisClient.read, RedisClient.live. simpl.
  rewrite lookup_insert_eq. simpl. rewrite E.
  destruct (Z.ltb_spec (now w) (now w + 300)); [reflexivity|lia].
Qed.

(** C6: a successful [forgotPassword] returns the code of the current
    time step; it asks the cache whether the user's key exists, deletes
    it if so, then sets it exactly once with a 300 second time-to-live.
    Afterwards the key [{userId}:otp] holds that one code, and every
    other key, so the code of every other user, is as before. *)
Theorem forgotPassword_single_otp :
  let otp := totp_generate (otp_secret config) (now w) in
  let prior := bool_decide (is_Some (RedisClient.read key w)) in
  let w' := snd (forgotPassword email w) in
  fst (forgotPassword email w) = Ok otp
  /\ calls w' = (calls w
                 ++ [CallFindByEmail (toLowerCase email); CallCacheExists key]
                 ++ (if prior then [CallCacheDel key] else [])
                 ++ [CallCacheSet key otp 300])%list
  /\ cache w' = <[key := mkEntry otp (now w + 300)]> (cache w)
  /\ RedisClient.read key w' = Some otp
  /\ (forall k, k <> key -> cache w' !! k = cache w !! k)
  /\ (forall other : string,
        other <> User.id user ->
        cache w' !! otpKey other = cache w !! otpKey other)
  /\ users w' = users w.
Proof.
  cbv zeta. rewrite forgotPassword_found. cbv zeta.
  assert (Hother : forall k c, k <> key ->
            (<[key := c]> (cache w) : gmap string CacheEntry) !! k = cache w !! k).
  { intros k c Hk. now apply lookup_insert_ne. }
  destruct (bool_decide (is_Some (RedisClient.read key w))) eqn:P;
    cbn [fst snd calls cache users record with_cache];
    rewrite ?insert_delete_eq;
    (split; [reflexivity|]);
    (split; [now rewrite <- !app_assoc|]);
    (split; [reflexivity|]);
    (split; [now apply read_fresh_entry|]);
    (split; [intros k Hk; now apply Hother|]);
    (split; [|reflexivity]);
    intros other Hne; apply Hother; intros E; now apply otpKey_inj in E.
Qed.

Variables (otp newPassword : string).

Let inWindow : bool := totp_check otp (otp_secret config) (now w).
Let isCached : bool := bool_decide (RedisClient.read key w = Some otp).

(** What [resetPassword] does once the user is found. *)
Lemma resetPassword_found :
  resetPassword email otp newPassword w =
  let w1 := record (CallFindByEmail (toLowerCase email)) w in
  match verifyResetPasswordOtp otp (User.id user) w1 with
  | (Ok _, w2) =>
      match hashPassword newPassword w2 with
      | (Ok hashed, w3) =>
          update (User.id user) (UpdateUser.mk (Some hashed) None) w3
      | (Throw e, w3) => (Throw e, w3)
      end
  | (Throw e, w2) => (Throw e, w2)
  end.
Proof.
  unfold resetPassword, bind.
  rewrite (validateEmail_accepts _ _ email_ok).
  unfold findByEmail. rewrite user_found. reflexivity.
Qed.

(** C4: the code passes [verifyResetPasswordOtp] exactly when it is in
    the time window and equal to the value cached under the user's key;
    [resetPassword] turns it down with NotFound exactly when one of the
    two fails, and then changes neither store nor cache; an accepted code
    leaves the key deleted, and from then on the same code is refused
    with NotFound, at once or after any delay. *)
Theorem resetPassword_otp_double_check :
  let out := resetPassword email otp newPassword w in
  succeeded (fst (verifyResetPasswordOtp otp (User.id user) w))
  = inWindow && isCached
  /\ rejected_NotFound (fst out) = negb (inWindow && isCached)
  /\ (inWindow && isCached = false ->
      users (snd out) = users w /\ cache (snd out) = cache w)
  /\ (inWindow && isCached = true ->
      cache (snd out) !! key = None
      /\ (truthy_string newPassword = true -> succeeded (fst out) = true)
      /\ forall (again : string) (d : Z),
          rejected_NotFound
            (fst (resetPassword email otp again (elapse d (snd out)))) = true).
Proof.
  cbv zeta. split.
  { rewrite verifyResetPasswordOtp_cases. cbv zeta.
    fold key. fold inWindow. fold isCached.
    now destruct inWindow, isCached. }
  rewrite resetPassword_found. cbv zeta.
  rewrite verifyResetPasswordOtp_cases. cbv zeta.
  rewrite read_record. change (now (record _ w)) with (now w).
  fold key. fold inWindow. fold isCached.
  destruct inWindow; simpl.
  2:{ repeat split; intros; discriminate. }
  destruct isCached; simpl.
  2:{ repeat split; intros; discriminate. }
  unfold hashPassword.
  destruct (truthy_string newPassword) eqn:T; simpl; run.
  - split; [reflexivity|]. split; [discriminate|]. intros _.
    split; [apply lookup_delete_eq|]. split; [reflexivity|].
    intros again d.
    apply resetPassword_rejects_without_cache
      with (user := patch_at (User.id user)
                      (UpdateUser.mk (Some (bcrypt_hash newPassword (entropy w))) None)
                      user).
    + exact email_ok.
    + simpl. rewrite StoreFacts.find_by_email_update, user_found. reflexivity.
    + simpl. rewrite StoreFacts.patch_at_id. apply lookup_delete_eq.
  - split; [reflexivity|]. split; [discriminate|]. intros _.
    split; [apply lookup_delete_eq|]. split; [discriminate|].
    intros again d.
    apply resetPassword_rejects_without_cache with (user := user).
    + exact email_ok.
    + exact user_found.
    + simpl. apply lookup_delete_eq.
Qed.

(** C9: when the code is accepted and the new password is not empty,
    [resetPassword] returns the record as [update] leaves it in the
    store, its password field holding the new bcrypt hash; [signup] and
    [validateUser] only ever return users whose password field is
    gone. *)
Theorem resetPassword_returns_password_hash :
  inWindow = true -> isCached = true -> truthy_string newPassword = true ->
  let out := resetPassword email otp newPassword w in
  let hashed := bcrypt_hash newPassword (entropy w) in
  (exists u, fst out = Ok (Some u)
             /\ User.password u = Some hashed
             /\ List.find (by_id (User.id user)) (users (snd out)) = Some u)
  /\ (forall dto w0 u, fst (signup dto w0) = Ok u -> User.password u = None)
  /\ (forall e p w0 u,
        fst (validateUser e p w0) = Ok (Some u) -> User.password u = None).
Proof.
  intros W C T. cbv zeta. split.
  2:{ split; [exact signup_scrubs_password|exact validateUser_scrubs_password]. }
  rewrite resetPassword_found. cbv zeta.
  rewrite verifyResetPasswordOtp_cases. cbv zeta.
  rewrite read_record. change (now (record _ w)) with (now w).
  fold key. fold inWindow. fold isCached. rewrite W, C. simpl.
  unfold hashPassword. rewrite T. run.
  destruct (StoreFacts.found_by_email_has_id _ _ _ user_found) as [u0 F0].
  rewrite StoreFacts.find_by_id_update, F0. simpl.
  eexists. split; [reflexivity|]. split; [|reflexivity].
  unfold patch_at. rewrite (proj2 (List.find_some _ _ F0)). reflexivity.
Qed.

End PasswordReset.

Section ForgotThenReset.

Context `{Libraries}.
Import UsersService.

(** The code returned by [forgotPassword], presented at once with a
    non-empty new password, is accepted. *)
Lemma forgot_then_reset_succeeds
    (email newPassword : string) (w : World) (user : User.t) :
  email_matches email = true ->
  List.find (by_email (toLowerCase email)) (users w) = Some user ->
  truthy_string newPassword = true ->
  succeeded
    (fst (resetPassword email (totp_generate (otp_secret config) (now w))
            newPassword (snd (forgotPassword email w)))) = true.
Proof.
  intros E F T.
  rewrite (forgotPassword_found email w user E F). cbv zeta.
  apply resetPassword_accepts with (user := user); auto.
  - now destruct (bool_decide _).
  - replace (now (snd _)) with (now w) by now destruct (bool_decide _).
    unfold totp_check. apply String.eqb_refl.
  - cbn [snd]. rewrite read_record.
    apply read_fresh_entry. now destruct (bool_decide _).
Qed.

End ForgotThenReset.

Section Refresh.

Context `{Libraries}.
Import UsersService.

Definition payload_of (u : User.t) : Payload :=
  mkPayload (User.id u) (User.role u).

(** The ways through [createAccessTokenFromRefreshToken]: every failure
    leaves as NotFound "Invalid token", and the only collaborator call
    is one [findOne]. *)
Lemma createAccessTokenFromRefreshToken_cases (refreshToken : string) (w : World) :
  createAccessTokenFromRefreshToken refreshToken w =
  match jwt_decode refreshToken with
  | None => (Throw (NotFoundException "Invalid token"), w)
  | Some decoded =>
      let w1 := record (CallFindOne (sub decoded)) w in
      match List.find (by_id (sub decoded)) (users w) with
      | Some user =>
          match User.refreshToken user with
          | Some h =>
              if bcrypt_compare refreshToken h
              then (Ok (jwt_sign (payload_of user) (getTokenOption "access") (now w)),
                    w1)
              else (Throw (NotFoundException "Invalid token"), w1)
          | None => (Throw (NotFoundException "Invalid token"), w1)
          end
      | None => (Throw (NotFoundException "Invalid token"), w1)
      end
  end.
Proof.
  unfold createAccessTokenFromRefreshToken, findOne, bcrypt_compare_js, getTokens.
  run.
  destruct (jwt_decode refreshToken) as [decoded|]; simpl; [|reflexivity].
  destruct (List.find _ (users w)) as [user|]; simpl; [|reflexivity].
  destruct (User.refreshToken user) as [h|]; simpl; [|reflexivity].
  now destruct (bcrypt_compare refreshToken h).
Qed.

(** C8: a successful [createAccessTokenFromRefreshToken] returns the
    access token signed for the stored user at the current second; it
    performs one [findOne] and nothing else, so the store (with its
    refresh-token hash), the cache and the entropy are as before, and
    the same refresh token is accepted again, at once or later. *)
Theorem refresh_does_not_rotate (refreshToken accessToken : string) (w : World) :
  fst (createAccessTokenFromRefreshToken refreshToken w) = Ok accessToken ->
  let w' := snd (createAccessTokenFromRefreshToken refreshToken w) in
  users w' = users w
  /\ cache w' = cache w /\ sets w' = sets w /\ entropy w' = entropy w
  /\ (exists decoded user,
        jwt_decode refreshToken = Some decoded
        /\ List.find (by_id (sub decoded)) (users w) = Some user
        /\ calls w' = (calls w ++ [CallFindOne (sub decoded)])%list
        /\ accessToken
           = jwt_sign (payload_of user) (getTokenOption "access") (now w))
  /\ forall d : Z,
      succeeded
        (fst (createAccessTokenFromRefreshToken refreshToken (elapse d w')))
      = true.
Proof.
  cbv zeta. rewrite createAccessTokenFromRefreshToken_cases.
  destruct (jwt_decode refreshToken) as [decoded|] eqn:D; [|discriminate].
  cbv zeta.
  destruct (List.find _ (users w)) as [user|] eqn:F; [|discriminate].
  destruct (User.refreshToken user) as [h|] eqn:R; [|discriminate].
  destruct (bcrypt_compare refreshToken h) eqn:C; [|discriminate].
  simpl. intros [= <-]. repeat split.
  - exists decoded, user. repeat split; assumption.
  - intros d. rewrite createAccessTokenFromRefreshToken_cases, D.
    simpl. now rewrite F, R, C.
Qed.

(** Once the token decodes to a stored user holding a hash, the outcome
    is the verdict of [bcrypt.compare] against that hash. *)
Lemma refresh_decided_by_compare
    (refreshToken : string) (w : World) (u stored : User.t) (h : string) :
  jwt_decode refreshToken = Some (payload_of u) ->
  List.find (by_id (User.id u)) (users w) = Some stored ->
  User.refreshToken stored = Some h ->
  fst (createAccessTokenFromRefreshToken refreshToken w)
  = if bcrypt_compare refreshToken h
    then Ok (jwt_sign (payload_of stored) (getTokenOption "access") (now w))
    else Throw (NotFoundException "Invalid token").
Proof.
  intros D F R. rewrite createAccessTokenFromRefreshToken_cases, D.
  cbn [sub payload_of]. rewrite F, R.
  now destruct (bcrypt_compare refreshToken h).
Qed.

Variables (user : User.t) (w : World) (d d' : Z).

Let refreshAt (t : Z) : string :=
  jwt_sign (payload_of user) (getTokenOption "refresh") t.

(** What one [signin] does: both tokens are signed at the current
    second, the hash of the refresh token replaces the stored one. *)
Lemma signin_effect (w0 : World) :
  signin user w0 =
  let at_ := jwt_sign (payload_of user) (getTokenOption "access") (now w0) in
  let rt := refreshAt (now w0) in
  let patch :=
    UpdateUser.mk None (Some (Some (bcrypt_hash rt (entropy w0)))) in
  (Ok (mkSignIn (mkTokens at_ rt) (setCookies at_)),
   record (CallUpdate (User.id user) patch)
     (with_users (List.map (patch_at (User.id user) patch) (users w0))
        (with_entropy (entropy w0 + 1)%N w0))).
Proof. reflexivity. Qed.

(** Two signins reading the same clock second issue the same tokens:
    the payload and the options are the same, nothing else goes in. *)
Lemma signin_tokens_by_second (w0 w1 : World) :
  now w0 = now w1 ->
  exists s0 s1,
    fst (signin user w0) = Ok s0 /\ fst (signin user w1) = Ok s1
    /\ tokens s0 = tokens s1.
Proof.
  intros E. rewrite !signin_effect. cbv zeta. rewrite E.
  do 2 eexists. repeat split.
Qed.

Hypothesis registered : is_Some (List.find (by_id (User.id user)) (users w)).
Hypothesis decode_sign :
  forall o t, jwt_decode (jwt_sign (payload_of user) o t) = Some (payload_of user).
Hypothesis compare_hash :
  forall s salt, bcrypt_compare s (bcrypt_hash s salt) = true.
(** The state two signins leave: both return their tokens, and the record
    of the user holds the hash of the second refresh token. *)
Lemma two_signins_state :
  let out1 := signin user w in
  let out2 := signin user (elapse d (snd out1)) in
  let w2 := elapse d' (snd out2) in
  exists stored,
    fst out1
    = Ok (mkSignIn
            (mkTokens (jwt_sign (payload_of user) (getTokenOption "access") (now w))
                      (refreshAt (now w)))
            (setCookies
               (jwt_sign (payload_of user) (getTokenOption "access") (now w))))
    /\ fst out2
       = Ok (mkSignIn
               (mkTokens
                  (jwt_sign (payload_of user) (getTokenOption "access") (now w + d))
                  (refreshAt (now w + d)))
               (setCookies
                  (jwt_sign (payload_of user) (getTokenOption "access")
                     (now w + d))))
    /\ List.find (by_id (User.id user)) (users w2) = Some stored
    /\ User.refreshToken stored
       = Some (bcrypt_hash (refreshAt (now w + d)) (entropy w + 1)%N).
Proof.
  cbv zeta. rewrite !signin_effect. cbv zeta. cbn [fst snd].
  destruct registered as [u0 F0].
  pose proof (StoreFacts.find_by_id_sound _ _ _ F0) as Hid.
  set (h1 := bcrypt_hash (refreshAt (now w)) (entropy w)).
  set (h2 := bcrypt_hash (refreshAt (now (elapse d _))) _).
  exists (patch_at (User.id user) (UpdateUser.mk None (Some (Some h2)))
            (patch_at (User.id user) (UpdateUser.mk None (Some (Some h1))) u0)).
  split; [reflexivity|]. split; [reflexivity|]. split.
  - cbn [users elapse record with_users].
    now rewrite !StoreFacts.find_by_id_update, F0.
  - unfold patch_at at 1, by_id.
    now rewrite StoreFacts.patch_at_id, Hid, String.eqb_refl.
Qed.

(** C1, amended: after two signins of a registered user, [d] seconds
    apart, the record holds one refresh-token hash, that of the second
    token, and [createAccessTokenFromRefreshToken] accepts the second
    token; two signins in the same second issue the same tokens. *)
Theorem signin_twice_latest_accepted :
  let out1 := signin user w in
  let out2 := signin user (elapse d (snd out1)) in
  let w2 := elapse d' (snd out2) in
  exists s1 s2 stored,
    fst out1 = Ok s1 /\ fst out2 = Ok s2
    /\ List.find (by_id (User.id user)) (users w2) = Some stored
    /\ User.refreshToken stored
       = Some (bcrypt_hash (refreshTokenOf (tokens s2)) (entropy w + 1)%N)
    /\ succeeded
         (fst (createAccessTokenFromRefreshToken (refreshTokenOf (tokens s2)) w2))
       = true
    /\ (d = 0 -> tokens s1 = tokens s2).
Proof.
  destruct two_signins_state as (stored & E1 & E2 & Hfind & Hstored).
  cbv zeta. do 2 eexists. exists stored.
  split; [exact E1|]. split; [exact E2|]. split; [exact Hfind|].
  cbn [tokens refreshTokenOf]. split; [exact Hstored|]. split.
  - rewrite (refresh_decided_by_compare (refreshAt (now w + d)) _ user stored _
               (decode_sign _ _) Hfind Hstored).
    now rewrite compare_hash.
  - intros ->. now rewrite Z.add_0_r.
Qed.

(** What becomes of the refresh token of the first signin is the verdict
    of [bcrypt.compare] against the hash of the second. *)
Lemma superseded_token_decided_by_compare :
  let out1 := signin user w in
  let out2 := signin user (elapse d (snd out1)) in
  let w2 := elapse d' (snd out2) in
  exists stored,
    List.find (by_id (User.id user)) (users w2) = Some stored
    /\ fst (createAccessTokenFromRefreshToken (refreshAt (now w)) w2)
       = if bcrypt_compare (refreshAt (now w))
              (bcrypt_hash (refreshAt (now w + d)) (entropy w + 1)%N)
         then Ok (jwt_sign (payload_of stored) (getTokenOption "access") (now w2))
         else Throw (NotFoundException "Invalid token").
Proof.
  destruct two_signins_state as (stored & _ & _ & Hfind & Hstored).
  cbv zeta. exists stored. split; [exact Hfind|].
  exact (refresh_decided_by_compare (refreshAt (now w)) _ user stored _
           (decode_sign _ _) Hfind Hstored).
Qed.

(** X26: with a [bcrypt] that reads the first 72 bytes of its input only,
    and refresh tokens of the user that agree on those bytes whatever the
    second they were issued in, [createAccessTokenFromRefreshToken] still
    accepts the token of the first signin after the second signin has
    replaced the stored hash. *)
Lemma superseded_token_still_accepted :
  (forall s s' salt,
      first_bytes 72 s = first_bytes 72 s' ->
      bcrypt_compare s (bcrypt_hash s' salt) = true) ->
  (forall t t', first_bytes 72 (refreshAt t) = first_bytes 72 (refreshAt t')) ->
  let out1 := signin user w in
  let out2 := signin user (elapse d (snd out1)) in
  let w2 := elapse d' (snd out2) in
  succeeded (fst (createAccessTokenFromRefreshToken (refreshAt (now w)) w2))
  = true.
Proof.
  intros Hlimit Hprefix. cbv zeta.
  destruct superseded_token_decided_by_compare as (stored & _ & Hdec).
  cbv zeta in Hdec. rewrite Hdec.
  now rewrite (Hlimit _ _ _ (Hprefix (now w) (now w + d))).
Qed.

End Refresh.

(* ===================================================================== *)
(** ** The reference libraries meet the contracts used above *)
(* ===================================================================== *)

Module ReferenceFacts.
Import Reference.

Lemma compare_hash (s : string) (salt : N) : compare s (hash s salt) = true.
Proof. unfold compare, hash. apply String.eqb_refl. Qed.

(** The reference digest reads no further than the 72nd byte. *)
Lemma compare_first_72 (s s' : string) (salt : N) :
  first_bytes 72 s = first_bytes 72 s' -> compare s (hash s' salt) = true.
Proof.
  unfold compare, hash, bcrypt_input_limit. intros ->. apply String.eqb_refl.
Qed.

Lemma decode_sign_alice (o : JwtSignOptions) (t : Z) :
  decode (sign (mkPayload "user-0" "user") o t) = Some (mkPayload "user-0" "user").
Proof. reflexivity. Qed.

(** The header and the start of the claims fill the first 72 bytes of
    alice's tokens; the issue second comes later. *)
Lemma sign_prefix_alice (o : JwtSignOptions) (t t' : Z) :
  first_bytes 72 (sign (mkPayload "user-0" "user") o t)
  = first_bytes 72 (sign (mkPayload "user-0" "user") o t').
Proof. reflexivity. Qed.

End ReferenceFacts.

(** C1, as stated, fails: two signins within one clock second sign the
    same payload with the same options and stamp, so alice gets the same
    refresh token twice, and the one from the first signin is accepted
    after the second. *)
Lemma signin_same_second_same_token :
  (exists s1 s2,
      fst (@signin Reference.libs Reference.alice Reference.world0) = Ok s1
      /\ fst (@signin Reference.libs Reference.alice
                (elapse 0 Reference.world_signed_in)) = Ok s2
      /\ refreshTokenOf (tokens s1) = Reference.alice_refresh 1000
      /\ refreshTokenOf (tokens s2) = Reference.alice_refresh 1000)
  /\ fst (@createAccessTokenFromRefreshToken Reference.libs
            (Reference.alice_refresh 1000)
            (Reference.world_signed_in_twice 0))
     = Ok (Reference.alice_access 1000).
Proof.
  split; [do 2 eexists; repeat split|]; reflexivity.
Qed.

(** C1, run: a second signin one second later; the record then holds the
    hash of the token of second 1001, and that token is accepted. *)
Lemma signin_twice_witness :
  option_map User.refreshToken
    (List.find (UsersService.by_id "user-0")
       (users (elapse 5 (Reference.world_signed_in_twice 1))))
  = Some (Some (Reference.hash (Reference.alice_refresh 1001) 1))
  /\ succeeded
       (fst (@createAccessTokenFromRefreshToken Reference.libs
               (Reference.alice_refresh 1001)
               (elapse 5 (Reference.world_signed_in_twice 1))))
     = true.
Proof.
  destruct (@signin_twice_latest_accepted Reference.libs Reference.alice
              Reference.world0 1 5
              (ex_intro _ Reference.alice eq_refl)
              ReferenceFacts.decode_sign_alice
              ReferenceFacts.compare_hash)
    as (s1 & s2 & stored & _ & E2 & Hfind & Hstored & Hnew & _).
  injection E2 as <-.
  split; [|exact Hnew].
  change (users (elapse 5 (Reference.world_signed_in_twice 1)))
    with (users (elapse 5
                   (snd (@signin Reference.libs Reference.alice
                           (elapse 1
                              (snd (@signin Reference.libs Reference.alice
                                      Reference.world0))))))).
  change (User.id Reference.alice) with "user-0" in Hfind.
  rewrite Hfind. cbn [option_map]. now rewrite Hstored.
Defined.

(** X26, run: the same two signins, and the token of second 1000.  It
    is another token than the one of second 1001, and it is accepted all
    the same, the two being equal on the 72 bytes the digest reads. *)
Lemma superseded_token_accepted_run :
  Reference.alice_refresh 1000 <> Reference.alice_refresh 1001
  /\ fst (@createAccessTokenFromRefreshToken Reference.libs
            (Reference.alice_refresh 1000)
            (elapse 5 (Reference.world_signed_in_twice 1)))
     = Ok (Reference.alice_access 1006).
Proof.
  split; [vm_compute; discriminate|].
  pose proof (@superseded_token_still_accepted Reference.libs Reference.alice
                Reference.world0 1 5
                (ex_intro _ Reference.alice eq_refl)
                ReferenceFacts.decode_sign_alice
                ReferenceFacts.compare_first_72
                (ReferenceFacts.sign_prefix_alice _)) as Hok.
  cbv zeta in Hok.
  change (fst (@createAccessTokenFromRefreshToken Reference.libs
                 (Reference.alice_refresh 1000)
                 (elapse 5 (Reference.world_signed_in_twice 1))))
    with (fst (@createAccessTokenFromRefreshToken Reference.libs
                 (@jwt_sign Reference.libs (payload_of Reference.alice)
                    (@getTokenOption Reference.libs "refresh")
                    (now Reference.world0))
                 (elapse 5
                    (snd (@signin Reference.libs Reference.alice
                            (elapse 1
                               (snd (@signin Reference.libs Reference.alice
                                       Reference.world0)))))))) in *.
  destruct (createAccessTokenFromRefreshToken _ _) as [[tok|e] w'] eqn:E;
    [|discriminate Hok].
  cbn [fst]. vm_compute in E. now injection E as <- _.
Defined.

(** C8, run: alice's refresh token buys an access token, the store is
    as before, and the same token works again an hour later. *)
Lemma refresh_does_not_rotate_witness :
  fst (@createAccessTokenFromRefreshToken Reference.libs
         (Reference.alice_refresh 1000) Reference.world_signed_in)
  = Ok (Reference.alice_access 1000)
  /\ users (snd (@createAccessTokenFromRefreshToken Reference.libs
                   (Reference.alice_refresh 1000) Reference.world_signed_in))
     = users Reference.world_signed_in
  /\ succeeded
       (fst (@createAccessTokenFromRefreshToken Reference.libs
               (Reference.alice_refresh 1000)
               (elapse 3600
                  (snd (@createAccessTokenFromRefreshToken Reference.libs
                          (Reference.alice_refresh 1000)
                          Reference.world_signed_in)))))
     = true.
Proof.
  split; [reflexivity|].
  destruct (@refresh_does_not_rotate Reference.libs
              (Reference.alice_refresh 1000)
              (Reference.alice_access 1000)
              Reference.world_signed_in eq_refl)
    as (Hu & _ & _ & _ & _ & Hagain).
  split; [exact Hu|exact (Hagain 3600)].
Defined.

(** C5, as stated, fails: bob's address is free, yet a sign-up with an
    empty password is refused by the guard of [hashPassword], with a
    plain Error, and nothing is stored. *)
Lemma signup_empty_password_fails :
  List.find (UsersService.by_email "bob@example.com") (users Reference.world0)
  = None
  /\ fst (@signup Reference.libs Reference.bob_no_password Reference.world0)
     = Throw (Error "Password is required for hashing.")
  /\ succeeded
       (fst (@signup Reference.libs Reference.bob_no_password Reference.world0))
     = false
  /\ users (snd (@signup Reference.libs Reference.bob_no_password
                   Reference.world0))
     = users Reference.world0.
Proof. repeat split. Qed.

(** C5, run: bob signs up with a password; alice's address is taken. *)
Lemma signup_witness :
  fst (@signup Reference.libs Reference.bob Reference.world0)
  = Ok (User.mk "user-1" "bob@example.com" None "user" None)
  /\ List.find (UsersService.by_email "bob@example.com")
       (users (snd (@signup Reference.libs Reference.bob Reference.world0)))
     = Some (User.mk "user-1" "bob@example.com"
               (Some (Reference.hash "hunter2" 0)) "user" None)
  /\ @signup Reference.libs (CreateUserDto.mk "alice@example.com" "pw")
       Reference.world0
     = (Throw (ConflictException "User already exists"),
        record (CallFindByEmail "alice@example.com") Reference.world0).
Proof.
  destruct (@signup_conflict_or_created Reference.libs Reference.bob
              Reference.world0) as [_ Hfresh].
  destruct (Hfresh eq_refl eq_refl) as (Hout & _ & Hstored).
  destruct (@signup_conflict_or_created Reference.libs
              (CreateUserDto.mk "alice@example.com" "pw") Reference.world0)
    as [Htaken _].
  split; [exact Hout|]. split; [exact Hstored|].
  exact (Htaken (ex_intro _ Reference.alice eq_refl)).
Defined.

(** C6, run: alice asks for a code at second 1000. *)
Lemma forgotPassword_witness :
  fst (@forgotPassword Reference.libs "alice@example.com" Reference.world0)
  = Ok "071047"
  /\ cache Reference.world_otp !! "user-0:otp" = Some (mkEntry "071047" 1300)
  /\ calls Reference.world_otp
     = [CallFindByEmail "alice@example.com"; CallCacheExists "user-0:otp";
        CallCacheSet "user-0:otp" "071047" 300].
Proof.
  destruct (@forgotPassword_single_otp Reference.libs "alice@example.com"
              Reference.world0 Reference.alice eq_refl eq_refl)
    as (Hout & Hcalls & Hcache & _).
  split; [exact Hout|]. split.
  - unfold Reference.world_otp. rewrite Hcache. apply lookup_insert_eq.
  - exact Hcalls.
Defined.

(** C4, run: the code just issued is accepted once; a wrong code and the
    replay are refused. *)
Lemma resetPassword_otp_witness :
  rejected_NotFound
    (fst (@resetPassword Reference.libs "alice@example.com" "071047" "n3w"
            Reference.world_otp)) = false
  /\ rejected_NotFound
       (fst (@resetPassword Reference.libs "alice@example.com" "000000" "n3w"
               Reference.world_otp)) = true
  /\ rejected_NotFound
       (fst (@resetPassword Reference.libs "alice@example.com" "071047" "n3w"
               (elapse 0
                  (snd (@resetPassword Reference.libs "alice@example.com"
                          "071047" "n3w" Reference.world_otp))))) = true.
Proof.
  destruct (@resetPassword_otp_double_check Reference.libs "alice@example.com"
              Reference.world_otp Reference.alice eq_refl eq_refl
              "071047" "n3w") as (_ & Hiff & _ & Hok).
  destruct (@resetPassword_otp_double_check Reference.libs "alice@example.com"
              Reference.world_otp Reference.alice eq_refl eq_refl
              "000000" "n3w") as (_ & Hbad & _ & _).
  split; [exact Hiff|]. split; [exact Hbad|].
  destruct (Hok eq_refl) as (_ & _ & Hreplay).
  exact (Hreplay "n3w" 0).
Defined.

(** C9, run: the user returned by the reset still carries the hash. *)
Lemma resetPassword_returns_password_hash_witness :
  exists u,
    fst (@resetPassword Reference.libs "alice@example.com" "071047" "n3w"
           Reference.world_otp) = Ok (Some u)
    /\ User.password u = Some (Reference.hash "n3w" 0).
Proof.
  destruct (@resetPassword_returns_password_hash Reference.libs
              "alice@example.com" Reference.world_otp Reference.alice
              eq_refl eq_refl "071047" "n3w" eq_refl eq_refl eq_refl)
    as [(u & Hout & Hpw & _) _].
  exists u. split; [exact Hout|exact Hpw].
Defined.

(* ===================================================================== *)
(** ** What [validateEmail] lets through *)
(* ===================================================================== *)

Module EmailFacts.
Import Regex.

Lemma no_upper_toLowerCase s : has_char is_upper s = false -> toLowerCase s = s.
Proof.
  induction s as [|c s IH]; simpl; [reflexivity|].
  intros [Hc Hs]%orb_false_iff. unfold lower_char. now rewrite Hc, IH.
Qed.

(** A word of [p*] is a string over [p]. *)
Lemma lang_star_class (p : ascii -> bool) r s :
  lang r s -> r = Star (Class p) -> all_chars p s = true.
Proof.
  induction 1 as [| | | | | r0 | r0 s1 s2 L1 _ L2 IH2]; intros E;
    try discriminate; [reflexivity|].
  injection E as ->. inversion L1 as [|? c Hc| | | | |]; subst. simpl.
  rewrite Hc. now apply IH2.
Qed.

Lemma all_chars_lang_star (p : ascii -> bool) s :
  all_chars p s = true -> lang (Star (Class p)) s.
Proof.
  induction s as [|c s IH]; simpl; [constructor|].
  intros [Hc Hs]%andb_true_iff.
  change (String c s) with (String c EmptyString +:+ s).
  constructor; [now constructor|auto].
Qed.

(** [p+]: a non-empty string over [p]. *)
Lemma lang_plus_class (p : ascii -> bool) s :
  lang (Plus (Class p)) s <-> s <> EmptyString /\ all_chars p s = true.
Proof.
  split.
  - intros L. inversion L as [| |? ? s1 s2 L1 L2| | | |]; subst.
    inversion L1 as [|? c Hc| | | | |]; subst. simpl. split; [discriminate|].
    rewrite Hc. now apply (lang_star_class p _ _ L2).
  - intros [Hne Hall]. destruct s as [|c s]; [contradiction|].
    simpl in Hall. apply andb_true_iff in Hall as [Hc Hs].
    change (String c s) with (String c EmptyString +:+ s).
    constructor; [now constructor|now apply all_chars_lang_star].
Qed.

Lemma lang_lit (c : ascii) s : lang (Lit c) s <-> s = String c EmptyString.
Proof.
  split.
  - intros L. inversion L as [|? c' Hc| | | | |]; subst.
    apply Ascii.eqb_eq in Hc. now subst.
  - intros ->. constructor. apply Ascii.eqb_refl.
Qed.

(** [[a-z]{2,4}] *)
Lemma lang_tld s :
  lang (Seq (Class is_lower)
          (Seq (Class is_lower)
             (Opt (Seq (Class is_lower) (Opt (Class is_lower)))))) s
  <-> all_chars is_lower s = true /\ (2 <= String.length s <= 4)%nat.
Proof.
  split.
  - intros L.
    inversion L as [| |? ? s1 r1 L1 R1| | | |]; subst.
    inversion L1 as [|? c1 H1| | | | |]; subst.
    inversion R1 as [| |? ? s2 r2 L2 R2| | | |]; subst.
    inversion L2 as [|? c2 H2| | | | |]; subst.
    inversion R2 as [| | |? ? ? E3|? ? ? R3| |]; subst.
    + inversion E3; subst. simpl. rewrite H1, H2. split; [reflexivity|lia].
    + inversion R3 as [| |? ? s3 r3 L3 R4| | | |]; subst.
      inversion L3 as [|? c3 H3| | | | |]; subst.
      inversion R4 as [| | |? ? ? E4|? ? ? L4| |]; subst.
      * inversion E4; subst. simpl. rewrite H1, H2, H3. split; [reflexivity|lia].
      * inversion L4 as [|? c4 H4| | | | |]; subst. simpl.
        rewrite H1, H2, H3, H4. split; [reflexivity|lia].
  - intros [Hall Hlen].
    destruct s as [|c1 [|c2 s]]; simpl in Hlen; try lia.
    simpl in Hall. apply andb_true_iff in Hall as [H1 Hall].
    apply andb_true_iff in Hall as [H2 Hall].
    change (String c1 (String c2 s))
      with (String c1 EmptyString +:+ (String c2 EmptyString +:+ s)).
    constructor; [now constructor|]. constructor; [now constructor|].
    destruct s as [|c3 s]; [apply lang_Alt_l; constructor|].
    simpl in Hall. apply andb_true_iff in Hall as [H3 Hall].
    apply lang_Alt_r.
    change (String c3 s) with (String c3 EmptyString +:+ s).
    constructor; [now constructor|].
    destruct s as [|c4 s]; [apply lang_Alt_l; constructor|].
    simpl in Hall. apply andb_true_iff in Hall as [H4 _].
    destruct s; simpl in Hlen; [|lia].
    apply lang_Alt_r. now constructor.
Qed.

End EmailFacts.

(** X1: [validateEmail] accepts an address exactly when it has the shape
    [local@domain.tld]: a non-empty local part over [[a-z0-9._%+-]], a
    non-empty domain over [[a-z0-9.-]], and two to four lowercase letters
    after the last dot. *)
Theorem email_matches_iff_shape (email : string) :
  email_matches email = true <-> email_shape email.
Proof.
  unfold email_matches, email_shape, emailRegex.
  rewrite RegexFacts.matches_lang. split.
  - intros L.
    inversion L as [| |? ? loc r1 Lloc R1| | | |]; subst.
    inversion R1 as [| |? ? at_ r2 Lat R2| | | |]; subst.
    inversion R2 as [| |? ? dom r3 Ldom R3| | | |]; subst.
    inversion R3 as [| |? ? dot tld Ldot Ltld| | | |]; subst.
    apply EmailFacts.lang_lit in Lat, Ldot. subst.
    apply EmailFacts.lang_plus_class in Lloc as [? ?], Ldom as [? ?].
    apply EmailFacts.lang_tld in Ltld as [? ?].
    exists loc, dom, tld. auto 10.
  - intros (loc & dom & tld & -> & ? & ? & ? & ? & ? & ?).
    constructor; [now apply EmailFacts.lang_plus_class|].
    constructor; [now apply EmailFacts.lang_lit|].
    constructor; [now apply EmailFacts.lang_plus_class|].
    constructor; [now apply EmailFacts.lang_lit|].
    now apply EmailFacts.lang_tld.
Qed.

(** X2: an address that passes [validateEmail] has no uppercase letter,
    so the [email.toLowerCase()] of [forgotPassword] and [resetPassword]
    looks up the very string that was validated. *)
Theorem validated_email_is_lowercase (email : string) :
  email_matches email = true -> toLowerCase email = email.
Proof.
  intros E. apply EmailFacts.no_upper_toLowerCase.
  destruct (has_char is_upper email) eqn:U; [|reflexivity].
  apply uppercase_email_no_match in U. congruence.
Qed.

Lemma validated_email_is_lowercase_witness :
  toLowerCase "user@example.com" = "user@example.com".
Proof. apply validated_email_is_lowercase. reflexivity. Defined.

Lemma email_matches_iff_shape_witness : email_shape "user@example.com".
Proof. apply email_matches_iff_shape. reflexivity. Defined.

(* ===================================================================== *)
(** ** The life of a reset code *)
(* ===================================================================== *)

Section OtpLifecycle.

Context `{Libraries}.
Import UsersService.

(** With nothing readable under the user's key, no code is accepted. *)
Lemma resetPassword_rejects_unread
    (email otp newPassword : string) (w : World) (user : User.t) :
  email_matches email = true ->
  List.find (by_email (toLowerCase email)) (users w) = Some user ->
  RedisClient.read (otpKey (User.id user)) w = None ->
  rejected_NotFound (fst (resetPassword email otp newPassword w)) = true.
Proof.
  intros E F C.
  rewrite (resetPassword_found email w user E F). cbv zeta.
  rewrite verifyResetPasswordOtp_cases. cbv zeta.
  rewrite read_record, C.
  destruct (totp_check _ _ _); reflexivity.
Qed.

(** The world [forgotPassword] leaves: same users, same clock, and the
    user's key holding the code until 300 seconds from now. *)
Lemma forgotPassword_world (email : string) (w : World) (user : User.t) :
  email_matches email = true ->
  List.find (by_email (toLowerCase email)) (users w) = Some user ->
  let w' := snd (forgotPassword email w) in
  users w' = users w /\ now w' = now w
  /\ cache w' !! otpKey (User.id user)
     = Some (mkEntry (totp_generate (otp_secret config) (now w)) (now w + 300)).
Proof.
  intros E F. cbv zeta. rewrite (forgotPassword_found email w user E F).
  cbv zeta. destruct (bool_decide _); cbn [snd users now cache record with_cache];
    repeat split; apply lookup_insert_eq.
Qed.

(** X3: 300 seconds or more after [forgotPassword], [resetPassword]
    refuses every code for that user with NotFound, the issued one
    included: the cached entry has run out. *)
Theorem otp_expires_after_300_seconds
    (email otp newPassword : string) (w : World) (user : User.t) (d : Z) :
  email_matches email = true ->
  List.find (by_email (toLowerCase email)) (users w) = Some user ->
  300 <= d ->
  rejected_NotFound
    (fst (resetPassword email otp newPassword
            (elapse d (snd (forgotPassword email w))))) = true.
Proof.
  intros E F D.
  destruct (forgotPassword_world email w user E F) as (Hu & Hn & Hc).
  apply resetPassword_rejects_unread with (user := user); auto.
  - cbn [users elapse]. now rewrite Hu.
  - unfold RedisClient.read. cbn [cache now elapse]. rewrite Hc, Hn.
    unfold RedisClient.live. cbn [expires_at].
    destruct (Z.ltb_spec (now w + d) (now w + 300)); [lia|reflexivity].
Qed.

(** X4: [resetPassword] deletes the cached code before it looks at the
    new password: with a good code and an empty password the call fails
    with the plain Error of [hashPassword], no password is changed, and
    the code is gone, so a second attempt with a proper password is
    refused with NotFound. *)
Theorem empty_password_consumes_code
    (email otp : string) (w : World) (user : User.t) :
  email_matches email = true ->
  List.find (by_email (toLowerCase email)) (users w) = Some user ->
  totp_check otp (otp_secret config) (now w) = true ->
  RedisClient.read (otpKey (User.id user)) w = Some otp ->
  let out := resetPassword email otp EmptyString w in
  fst out = Throw (Error "Password is required for hashing.")
  /\ users (snd out) = users w
  /\ cache (snd out) !! otpKey (User.id user) = None
  /\ forall newPassword : string,
      rejected_NotFound (fst (resetPassword email otp newPassword (snd out)))
      = true.
Proof.
  intros E F W C. cbv zeta.
  rewrite (resetPassword_found email w user E F). cbv zeta.
  rewrite verifyResetPasswordOtp_cases. cbv zeta.
  rewrite read_record. change (now (record _ w)) with (now w).
  rewrite W, C, bool_decide_eq_true_2 by reflexivity.
  cbn [negb]. unfold hashPassword. cbn [truthy_string negb].
  unfold throw. cbn [fst snd users cache record with_cache].
  split; [reflexivity|]. split; [reflexivity|].
  split; [apply lookup_delete_eq|].
  intros newPassword.
  apply resetPassword_rejects_without_cache with (user := user); auto.
  apply lookup_delete_eq.
Qed.

(** X5: the reset code depends on the shared secret and the 300 second
    time step only, not on the user: when two users ask for a code in the
    same step, the code returned to the first resets the password of the
    second. *)
Theorem otp_is_shared_between_users
    (emailA emailB newPassword : string) (w : World) (userA userB : User.t)
    (d d' : Z) :
  email_matches emailA = true ->
  email_matches emailB = true ->
  List.find (by_email (toLowerCase emailA)) (users w) = Some userA ->
  List.find (by_email (toLowerCase emailB)) (users w) = Some userB ->
  (now w + d) / 300 = now w / 300 ->
  (now w + d + d') / 300 = now w / 300 ->
  0 <= d' < 300 ->
  truthy_string newPassword = true ->
  let outA := forgotPassword emailA w in
  let outB := forgotPassword emailB (elapse d (snd outA)) in
  exists otp,
    fst outA = Ok otp /\ fst outB = Ok otp
    /\ succeeded
         (fst (resetPassword emailB otp newPassword (elapse d' (snd outB))))
       = true.
Proof.
  intros EA EB FA FB S1 S2 D' T. cbv zeta.
  destruct (forgotPassword_world emailA w userA EA FA) as (HuA & HnA & _).
  assert (FB' : List.find (by_email (toLowerCase emailB))
                  (users (elapse d (snd (forgotPassword emailA w))))
                = Some userB) by (cbn [users elapse]; now rewrite HuA).
  destruct (forgotPassword_world emailB _ userB EB FB') as (HuB & HnB & HcB).
  cbn [now elapse] in HnB, HcB. rewrite HnA in HnB, HcB.
  exists (totp_generate (otp_secret config) (now w)).
  split; [now rewrite (forgotPassword_found emailA w userA EA FA)|].
  assert (Hsame : totp_generate (otp_secret config) (now w + d)
                  = totp_generate (otp_secret config) (now w))
    by (unfold totp_generate, totp_step; now rewrite S1).
  split.
  { rewrite (forgotPassword_found emailB _ userB EB FB'). cbv zeta.
    cbn [fst now elapse]. now rewrite HnA, Hsame. }
  apply resetPassword_accepts with (user := userB); auto.
  - cbn [users elapse]. now rewrite HuB.
  - cbn [now elapse]. rewrite HnB. unfold totp_check, totp_generate, totp_step.
    rewrite S2. apply String.eqb_refl.
  - unfold RedisClient.read. cbn [cache now elapse]. rewrite HcB, HnB.
    unfold RedisClient.live. cbn [expires_at value].
    destruct (Z.ltb_spec (now w + d + d') (now w + d + 300)); [|lia].
    now rewrite Hsame.
Qed.

End OtpLifecycle.

(* ===================================================================== *)
(** ** Sessions: signin, refresh, signout, revocation *)
(* ===================================================================== *)

Section Revocation.

(** X6: once [revokeToken] has run for a token, [isTokenRevoked] answers
    true for it; tokens revoked earlier stay revoked, and the answer for
    any other token is what it was. *)
Theorem revoked_tokens_stay_revoked (tokenId other : string) (w : World) :
  let w' := snd (revokeToken tokenId w) in
  fst (isTokenRevoked tokenId w') = Ok true
  /\ (fst (isTokenRevoked other w) = Ok true ->
      fst (isTokenRevoked other w') = Ok true)
  /\ (other <> tokenId ->
      fst (isTokenRevoked other w') = fst (isTokenRevoked other w)).
Proof.
  cbv zeta. unfold isTokenRevoked, revokeToken, RedisClient.sismember,
    RedisClient.sadd, RedisClient.members.
  cbn [fst snd sets record with_sets]. rewrite lookup_insert_eq. cbn [default].
  split; [|split].
  - f_equal. apply bool_decide_eq_true_2. set_solver.
  - intros [= E]. apply bool_decide_eq_true_1 in E.
    f_equal. apply bool_decide_eq_true_2. set_solver.
  - intros Hne. f_equal. apply bool_decide_ext. set_solver.
Qed.

End Revocation.

Section Session.

Context `{Libraries}.
Import UsersService.

(** The successful path of [signout]. *)
Lemma signout_effect (user : User.t) (token : string) (w : World) :
  truthy_string token = true ->
  signout (Some (mkReqUser (Some user))) (Some token) w =
  let cleared := UpdateUser.mk None (Some None) in
  let w1 := record (CallUpdate (User.id user) cleared)
              (with_users (List.map (patch_at (User.id user) cleared) (users w))
                 w) in
  (Ok true,
   record (CallCacheSadd "revokedToken" token)
     (with_sets
        (<["revokedToken" := {[token]} ∪ RedisClient.members "revokedToken" w1]>
           (sets w1))
        w1)).
Proof. intros T. unfold signout. run. now rewrite T. Qed.

Lemma patch_at_other (i : string) (p : UpdateUser.t) (u : User.t) :
  User.id u <> i -> patch_at i p u = u.
Proof.
  intros Hne. unfold patch_at, by_id.
  destruct (String.eqb_spec (User.id u) i); [contradiction|reflexivity].
Qed.

Lemma find_other_after_update (i j : string) (p : UpdateUser.t) us :
  j <> i ->
  List.find (by_id j) (List.map (patch_at i p) us) = List.find (by_id j) us.
Proof.
  intros Hne. rewrite StoreFacts.find_by_id_update.
  destruct (List.find (by_id j) us) as [u|] eqn:F; [|reflexivity].
  simpl. f_equal. apply patch_at_other.
  rewrite (StoreFacts.find_by_id_sound _ _ _ F). exact Hne.
Qed.

(** X7: a [signout] with a user and a non-empty token returns true, puts
    the token in the revoked set and clears the user's refresh-token
    hash, so that from then on [createAccessTokenFromRefreshToken] turns
    down every token naming that user with NotFound; the records of the
    other users are not touched. *)
Theorem signout_ends_session (user : User.t) (token : string) (w : World) :
  truthy_string token = true ->
  let out := signout (Some (mkReqUser (Some user))) (Some token) w in
  fst out = Ok true
  /\ fst (isTokenRevoked token (snd out)) = Ok true
  /\ (forall stored,
        List.find (by_id (User.id user)) (users (snd out)) = Some stored ->
        User.refreshToken stored = None)
  /\ (forall (refreshToken : string) (p : Payload) (d : Z),
        jwt_decode refreshToken = Some p -> sub p = User.id user ->
        fst (createAccessTokenFromRefreshToken refreshToken (elapse d (snd out)))
        = Throw (NotFoundException "Invalid token"))
  /\ (forall j, j <> User.id user ->
        List.find (by_id j) (users (snd out)) = List.find (by_id j) (users w)).
Proof.
  intros T. cbv zeta. rewrite (signout_effect _ _ _ T). cbv zeta.
  cbn [fst snd users record with_sets with_users].
  assert (Hcleared : forall stored,
    List.find (by_id (User.id user))
      (List.map (patch_at (User.id user) (UpdateUser.mk None (Some None)))
         (users w)) = Some stored ->
    User.refreshToken stored = None).
  { intros stored. rewrite StoreFacts.find_by_id_update.
    destruct (List.find _ (users w)) as [u0|] eqn:F; [|discriminate].
    intros [= <-]. unfold patch_at.
    now rewrite (proj2 (List.find_some _ _ F)). }
  split; [reflexivity|]. split.
  { unfold isTokenRevoked, RedisClient.sismember, RedisClient.members.
    cbn [fst sets record with_sets]. rewrite lookup_insert_eq. cbn [default].
    f_equal. apply bool_decide_eq_true_2. set_solver. }
  split; [exact Hcleared|]. split.
  - intros refreshToken p d D S.
    rewrite createAccessTokenFromRefreshToken_cases, D, S. cbv zeta.
    cbn [users elapse record with_sets with_users].
    destruct (List.find _ _) as [stored|]; [|reflexivity].
    now rewrite (Hcleared stored eq_refl).
  - intros j Hj. now apply find_other_after_update.
Qed.

(** X8: [createAccessTokenFromRefreshToken] either returns a token or
    throws NotFound "Invalid token", whatever went wrong inside (an
    unknown user included); it never changes the store, the cache or the
    revoked set, and a token that does not decode costs no collaborator
    call at all. *)
Theorem refresh_fails_only_with_invalid_token (refreshToken : string) (w : World) :
  let out := createAccessTokenFromRefreshToken refreshToken w in
  (succeeded (fst out) = true
   \/ fst out = Throw (NotFoundException "Invalid token"))
  /\ users (snd out) = users w /\ cache (snd out) = cache w
  /\ sets (snd out) = sets w /\ entropy (snd out) = entropy w
  /\ (jwt_decode refreshToken = None -> snd out = w)
  /\ (forall p, jwt_decode refreshToken = Some p ->
        List.find (by_id (sub p)) (users w) = None ->
        fst out = Throw (NotFoundException "Invalid token")).
Proof.
  cbv zeta. rewrite createAccessTokenFromRefreshToken_cases.
  destruct (jwt_decode refreshToken) as [p|]; cbv zeta.
  2:{ repeat split; auto; congruence. }
  destruct (List.find _ (users w)) as [stored|] eqn:F.
  2:{ repeat split; auto; congruence. }
  destruct (User.refreshToken stored) as [h|].
  2:{ repeat split; auto; congruence. }
  destruct (bcrypt_compare refreshToken h); repeat split; auto; try congruence;
    intros p0 [= <-]; congruence.
Qed.

(** X9: the refresh token returned by [signin] for a registered user is
    accepted by [createAccessTokenFromRefreshToken] however much later it
    is presented (no expiry is looked at), and the cookie of the signin
    is the one serialized from its access token. *)
Theorem signin_then_refresh (user : User.t) (w : World) (d : Z) :
  is_Some (List.find (by_id (User.id user)) (users w)) ->
  (forall o t,
      jwt_decode (jwt_sign (payload_of user) o t) = Some (payload_of user)) ->
  (forall s salt, bcrypt_compare s (bcrypt_hash s salt) = true) ->
  let out := signin user w in
  exists s,
    fst out = Ok s
    /\ cookie s = setCookies (accessToken (tokens s))
    /\ succeeded
         (fst (createAccessTokenFromRefreshToken (refreshTokenOf (tokens s))
                 (elapse d (snd out)))) = true.
Proof.
  intros [u0 F0] Hdec Hcmp. cbv zeta. rewrite signin_effect. cbv zeta.
  eexists. split; [reflexivity|]. split; [reflexivity|].
  cbn [fst snd tokens refreshTokenOf].
  pose proof (StoreFacts.find_by_id_sound _ _ _ F0) as Hid.
  erewrite refresh_decided_by_compare with (u := user).
  - rewrite Hcmp. reflexivity.
  - apply Hdec.
  - cbn [users elapse record with_users].
    rewrite StoreFacts.find_by_id_update, F0. reflexivity.
  - unfold patch_at, by_id. now rewrite Hid, String.eqb_refl.
Qed.

End Session.

(* ===================================================================== *)
(** ** Credentials: signup, password reset and login check *)
(* ===================================================================== *)

Section Credentials.

Context `{Libraries}.
Import UsersService.

(** What [signup] does for a free address and a non-empty password. *)
Lemma signup_effect (dto : CreateUserDto.t) (w : World) :
  List.find (by_email (CreateUserDto.email dto)) (users w) = None ->
  truthy_string (CreateUserDto.password dto) = true ->
  signup dto w =
  let stored :=
    User.mk (uuid (N.of_nat (length (users w)))) (CreateUserDto.email dto)
      (Some (bcrypt_hash (CreateUserDto.password dto) (entropy w)))
      default_role None in
  (Ok (User.set_password None stored),
   record (CallCreate (CreateUserDto.email dto))
     (with_users (users w ++ [stored])
        (with_entropy (entropy w + 1)%N
           (record (CallFindByEmail (CreateUserDto.email dto)) w)))).
Proof.
  intros F T. unfold signup, findByEmail, hashPassword. run.
  now rewrite F, T.
Qed.

(** The outcome of [validateUser] when the address has a record with a
    password hash. *)
Lemma validateUser_found
    (email password h : string) (w : World) (stored : User.t) :
  List.find (by_email email) (users w) = Some stored ->
  User.password stored = Some h ->
  fst (validateUser email password w)
  = Ok (if bcrypt_compare password h
        then Some (User.set_password None stored) else None).
Proof.
  intros F P. unfold validateUser, findByEmail, comparePassword,
    bcrypt_compare_js. run. rewrite F, P. simpl.
  now destruct (bcrypt_compare password h).
Qed.

Variable compare_hash : forall s salt, bcrypt_compare s (bcrypt_hash s salt) = true.

(** X10: after a successful [signup], the address is taken (a second
    [signup] with it throws Conflict, whatever its password),
    [validateUser] with the same password returns the user that [signup]
    returned, and [validateUser] with a password that bcrypt does not
    match against the stored hash returns null. *)
Theorem signup_establishes_credentials (dto : CreateUserDto.t) (w : World) :
  let email := CreateUserDto.email dto in
  let plain := CreateUserDto.password dto in
  List.find (by_email email) (users w) = None ->
  truthy_string plain = true ->
  let out := signup dto w in
  exists u,
    fst out = Ok u
    /\ fst (validateUser email plain (snd out)) = Ok (Some u)
    /\ (forall other,
          bcrypt_compare other (bcrypt_hash plain (entropy w)) = false ->
          fst (validateUser email other (snd out)) = Ok None)
    /\ (forall password',
          fst (signup (CreateUserDto.mk email password') (snd out))
          = Throw (ConflictException "User already exists")).
Proof.
  cbv zeta. intros F T. rewrite (signup_effect _ _ F T). cbv zeta.
  cbn [fst snd].
  set (stored := User.mk _ _ _ _ _).
  assert (Ffound : List.find (by_email (CreateUserDto.email dto))
                     (users w ++ [stored]) = Some stored).
  { rewrite (StoreFacts.find_app_none _ _ _ F). simpl.
    unfold by_email. cbn [User.email stored]. now rewrite String.eqb_refl. }
  exists (User.set_password None stored). split; [reflexivity|].
  split; [|split].
  - rewrite (validateUser_found _ _ (bcrypt_hash (CreateUserDto.password dto)
                                       (entropy w)) _ stored);
      [now rewrite compare_hash|exact Ffound|reflexivity].
  - intros other Hno.
    rewrite (validateUser_found _ _ (bcrypt_hash (CreateUserDto.password dto)
                                       (entropy w)) _ stored);
      [now rewrite Hno|exact Ffound|reflexivity].
  - intros password'. unfold signup, findByEmail. run.
    cbn [CreateUserDto.email]. now rewrite Ffound.
Qed.

(** X11: after a successful [resetPassword], [validateUser] accepts the
    new password for that address and returns the user without its
    password field; a password that bcrypt does not match against the new
    hash, the old one for instance, is no longer accepted. *)
Theorem reset_then_validateUser
    (email otp newPassword : string) (w : World) (user : User.t) :
  email_matches email = true ->
  List.find (by_email (toLowerCase email)) (users w) = Some user ->
  totp_check otp (otp_secret config) (now w) = true ->
  RedisClient.read (otpKey (User.id user)) w = Some otp ->
  truthy_string newPassword = true ->
  let w' := snd (resetPassword email otp newPassword w) in
  (exists u,
      fst (validateUser email newPassword w') = Ok (Some u)
      /\ User.id u = User.id user /\ User.password u = None)
  /\ (forall other,
        bcrypt_compare other (bcrypt_hash newPassword (entropy w)) = false ->
        fst (validateUser email other w') = Ok None).
Proof.
  intros E F W C T. cbv zeta.
  rewrite (resetPassword_found email w user E F). cbv zeta.
  rewrite verifyResetPasswordOtp_cases. cbv zeta.
  rewrite read_record. change (now (record _ w)) with (now w).
  rewrite W, C, bool_decide_eq_true_2 by reflexivity.
  cbn [negb]. unfold hashPassword. rewrite T. run.
  set (p := UpdateUser.mk (Some (bcrypt_hash newPassword (entropy w))) None).
  assert (Ffound : List.find (by_email email)
                     (List.map (patch_at (User.id user) p) (users w))
                   = Some (patch p user)).
  { rewrite StoreFacts.find_by_email_update.
    assert (Hlow : toLowerCase email = email).
    { apply EmailFacts.no_upper_toLowerCase.
      destruct (has_char is_upper email) eqn:Up; [|reflexivity].
      apply uppercase_email_no_match in Up. congruence. }
    rewrite <- Hlow at 1. rewrite F.
    simpl. now rewrite StoreFacts.patch_at_same. }
  split.
  - exists (User.set_password None (patch p user)).
    rewrite (validateUser_found _ _ (bcrypt_hash newPassword (entropy w)) _
               (patch p user)); [|exact Ffound|reflexivity].
    rewrite compare_hash. repeat split.
  - intros other Hno.
    rewrite (validateUser_found _ _ (bcrypt_hash newPassword (entropy w)) _
               (patch p user)); [|exact Ffound|reflexivity].
    now rewrite Hno.
Qed.

End Credentials.

(* ===================================================================== *)
(** ** Wallet identifiers *)
(* ===================================================================== *)

Module WalletIdFacts.
Import WalletId.

Lemma all_chars_append (p : ascii -> bool) (a b : string) :
  all_chars p (a +:+ b) = all_chars p a && all_chars p b.
Proof.
  induction a as [|c a IH]; simpl; [reflexivity|].
  now rewrite IH, andb_assoc.
Qed.

(** Every index below 33 picks one character of the alphabet. *)
Lemma charAt_in_range (j : nat) :
  (j < 33)%nat ->
  String.length (charAt characters j) = 1%nat
  /\ all_chars (one_of characters) (charAt characters j) = true.
Proof.
  intros Hj.
  do 33 (destruct j as [|j]; [split; reflexivity|]). lia.
Qed.

Lemma none_of_IOU (c : ascii) :
  one_of characters c = true -> one_of "IOU" c = false.
Proof.
  destruct c as [b0 b1 b2 b3 b4 b5 b6 b7].
  destruct b0, b1, b2, b3, b4, b5, b6, b7;
    vm_compute; intros E; solve [reflexivity | discriminate E].
Qed.

Lemma all_chars_excludes (p q : ascii -> bool) (s : string) :
  (forall c, p c = true -> q c = false) ->
  all_chars p s = true -> has_char q s = false.
Proof.
  intros Hpq. induction s as [|c s IH]; simpl; [reflexivity|].
  intros [Hc Hs]%andb_true_iff. now rewrite (Hpq _ Hc), IH.
Qed.

Lemma loop_length_alphabet (draw : nat -> nat) :
  (forall k, (draw k < 33)%nat) ->
  forall n i acc,
    String.length (loop draw n i acc) = (String.length acc + n)%nat
    /\ (all_chars (one_of characters) acc = true ->
        all_chars (one_of characters) (loop draw n i acc) = true).
Proof.
  intros Hd. induction n as [|n IH]; intros i acc; simpl.
  - split; [lia|auto].
  - destruct (IH (S i) (acc +:+ charAt characters (draw i))) as [Hl Ha].
    destruct (charAt_in_range _ (Hd i)) as [H1 H2].
    split.
    + rewrite Hl, StringFacts.length_append, H1. lia.
    + intros Hacc. apply Ha. now rewrite all_chars_append, Hacc, H2.
Qed.

End WalletIdFacts.

(** X12: as long as every draw is an index of the alphabet,
    [generateUniqueWalletId(length)] returns exactly [length] characters
    (none for a length of zero or less), all of them digits or capital
    letters of the 33-character alphabet, which has no I, O or U. *)
Theorem generateUniqueWalletId_length_and_alphabet (draw : nat -> nat) (len : Z) :
  (forall k, (draw k < 33)%nat) ->
  let walletId := WalletId.generateUniqueWalletId draw len in
  String.length walletId = Z.to_nat len
  /\ all_chars (one_of WalletId.characters) walletId = true
  /\ has_char (one_of "IOU") walletId = false
  /\ (len <= 0 -> walletId = EmptyString).
Proof.
  intros Hd. cbv zeta. unfold WalletId.generateUniqueWalletId.
  destruct (WalletIdFacts.loop_length_alphabet draw Hd (Z.to_nat len) 0 EmptyString)
    as [Hl Ha].
  split; [exact Hl|]. split; [now apply Ha|]. split.
  - apply (WalletIdFacts.all_chars_excludes (one_of WalletId.characters));
      [exact WalletIdFacts.none_of_IOU|now apply Ha].
  - intros Hle. replace (Z.to_nat len) with O by lia. reflexivity.
Qed.

Lemma generateUniqueWalletId_witness :
  String.length (WalletId.generateUniqueWalletId (fun k => (7 * k) mod 33)%nat 8)
  = 8%nat
  /\ WalletId.generateUniqueWalletId (fun k => (7 * k) mod 33)%nat 8 = "07EMV29G".
Proof.
  split; [|reflexivity].
  apply (generateUniqueWalletId_length_and_alphabet (fun k => (7 * k) mod 33)%nat 8).
  intros k. apply Nat.mod_upper_bound. discriminate.
Defined.

(* ===================================================================== *)
(** ** Client profiles *)
(* ===================================================================== *)

Module ListFacts.

Lemma find_app_miss {A} (q : A -> bool) (xs ys : list A) :
  List.find q xs = None -> List.find q (xs ++ ys) = List.find q ys.
Proof.
  induction xs as [|x xs IH]; simpl; [reflexivity|].
  destruct (q x); [discriminate|exact IH].
Qed.

Lemma find_app_hit {A} (q : A -> bool) (xs ys : list A) (x : A) :
  List.find q xs = Some x -> List.find q (xs ++ ys) = Some x.
Proof.
  induction xs as [|x0 xs IH]; simpl; [discriminate|].
  destruct (q x0); [auto|exact IH].
Qed.

End ListFacts.

Section ClientProfiles.

Context {Amount Transaction : Type} `{Remote Amount Transaction}.

(** What [createClientProfile] does when no profile has the address or
    the number. *)
Lemma createClientProfile_free
    (userId : string) (client : CreateClientProfileDto.t) (s : Store Amount) :
  List.find (same_email_or_phone (CreateClientProfileDto.email client)
                                 (CreateClientProfileDto.phone client))
            (st_clients s) = None ->
  createClientProfile userId client s =
  let row := ClientProfile.mk (new_id (length (st_clients s)))
               (CreateClientProfileDto.fullName client)
               (CreateClientProfileDto.email client)
               (CreateClientProfileDto.phone client)
               (List.find (UsersService.by_id userId) (st_users s))
               (st_clock s) (st_clock s) in
  (Done row, with_clients (st_clients s ++ [row]) s).
Proof.
  intros F. unfold createClientProfile, andThen, clientRepository_findOne.
  now rewrite F.
Qed.

(** X13: [createClientProfile] fails with Conflict exactly when some
    stored profile has the same e-mail address or the same phone number;
    it then leaves the store as it was.  Otherwise it stores one new
    profile with the name, address and number of the request. *)
Theorem createClientProfile_conflict_iff
    (userId : string) (client : CreateClientProfileDto.t) (s : Store Amount) :
  let taken :=
    existsb (same_email_or_phone (CreateClientProfileDto.email client)
                                 (CreateClientProfileDto.phone client))
            (st_clients s) in
  let out := createClientProfile userId client s in
  (taken = true ->
   out = (Fail (Nest (ConflictException "Client profile already exists")), s))
  /\ (taken = false ->
      exists row,
        fst out = Done row
        /\ st_clients (snd out) = (st_clients s ++ [row])%list
        /\ ClientProfile.fullName row = CreateClientProfileDto.fullName client
        /\ ClientProfile.email row = CreateClientProfileDto.email client
        /\ ClientProfile.phone row = CreateClientProfileDto.phone client).
Proof.
  cbv zeta. split.
  - intros [c [Hin Hc]]%existsb_exists.
    unfold createClientProfile, andThen, clientRepository_findOne.
    destruct (List.find _ (st_clients s)) eqn:F; [reflexivity|].
    apply (List.find_none _ _ F) in Hin. congruence.
  - intros Hno.
    assert (F : List.find (same_email_or_phone (CreateClientProfileDto.email client)
                             (CreateClientProfileDto.phone client))
                  (st_clients s) = None).
    { destruct (List.find _ (st_clients s)) as [c|] eqn:F; [|reflexivity].
      apply List.find_some in F as [Hin Hc].
      assert (existsb (same_email_or_phone (CreateClientProfileDto.email client)
                         (CreateClientProfileDto.phone client))
                (st_clients s) = true)
        by (apply existsb_exists; eauto).
      congruence. }
    rewrite (createClientProfile_free _ _ _ F). cbv zeta.
    eexists. repeat split.
Qed.

(** X14: [createClientProfile] keeps e-mail addresses and phone numbers
    unique among the stored profiles. *)
Theorem createClientProfile_keeps_contacts_unique
    (userId : string) (client : CreateClientProfileDto.t) (s : Store Amount) :
  unique_contacts (st_clients s) ->
  unique_contacts (st_clients (snd (createClientProfile userId client s))).
Proof.
  intros [He Hp].
  destruct (List.find (same_email_or_phone (CreateClientProfileDto.email client)
                         (CreateClientProfileDto.phone client))
              (st_clients s)) as [c|] eqn:F.
  - unfold createClientProfile, andThen, clientRepository_findOne.
    rewrite F. now split.
  - rewrite (createClientProfile_free _ _ _ F). cbv zeta.
    cbn [snd st_clients with_clients].
    assert (Hfree : forall c, In c (st_clients s) ->
              ClientProfile.email c <> CreateClientProfileDto.email client
              /\ ClientProfile.phone c <> CreateClientProfileDto.phone client).
    { intros c Hin. apply (List.find_none _ _ F) in Hin.
      unfold same_email_or_phone in Hin.
      apply orb_false_iff in Hin as [E1 E2].
      split; intros E; [rewrite E, String.eqb_refl in E1
                       |rewrite E, String.eqb_refl in E2]; discriminate. }
    split; rewrite List.map_app; apply NoDup_app; (split; [assumption|]);
      (split; [|apply NoDup_singleton]);
      intros x Hx Hx'; apply list_elem_of_In in Hx;
      apply list_elem_of_singleton in Hx'; subst x;
      apply List.in_map_iff in Hx as [c [Hc Hin]];
      destruct (Hfree c Hin); cbn in Hc; congruence.
Qed.

(** X16: [getClientById] throws NotFound "Client not found" for an
    identifier no profile has, and returns the first profile with that
    identifier otherwise, without changing the store; a profile just
    created is found under its identifier provided the identifier handed
    out was not in use. *)
Theorem getClientById_found_or_NotFound
    (clientId userId : string) (client : CreateClientProfileDto.t)
    (s : Store Amount) :
  (List.find (client_by_id clientId) (st_clients s) = None ->
   getClientById clientId s
   = (Fail (Nest (NotFoundException "Client not found")), s))
  /\ (forall c, List.find (client_by_id clientId) (st_clients s) = Some c ->
        getClientById clientId s = (Done c, s)
        /\ ClientProfile.id c = clientId)
  /\ (List.find (same_email_or_phone (CreateClientProfileDto.email client)
                                     (CreateClientProfileDto.phone client))
                (st_clients s) = None ->
      List.find (client_by_id (new_id (length (st_clients s)))) (st_clients s)
      = None ->
      let out := createClientProfile userId client s in
      exists row,
        fst out = Done row
        /\ fst (getClientById (ClientProfile.id row) (snd out)) = Done row).
Proof.
  unfold getClientById, andThen, clientRepository_findOne.
  split; [now intros ->|]. split.
  - intros c F. rewrite F. split; [reflexivity|].
    apply List.find_some in F as [_ E]. now apply String.eqb_eq.
  - intros F Hfresh. cbv zeta. rewrite (createClientProfile_free _ _ _ F).
    cbv zeta. eexists. split; [reflexivity|].
    cbn [fst snd st_clients with_clients ClientProfile.id].
    rewrite (ListFacts.find_app_miss _ _ _ Hfresh). cbn [List.find].
    unfold client_by_id at 1. cbn [ClientProfile.id].
    now rewrite String.eqb_refl.
Qed.

End ClientProfiles.

Section ClientListing.

Context {Amount Transaction : Type} `{Remote Amount Transaction}
        `{Database Amount}.

(** The listing of the controller shows the views of the rows the
    database returns for the owner. *)
Lemma controller_getAllClientProfiles_effect (userId : string) (s : Store Amount) :
  controller_getAllClientProfiles userId s
  = (Done (List.map to_view
             (find_result s (List.filter (owned_by userId) (st_clients s)))),
     s).
Proof. reflexivity. Qed.

(** X15: provided the database returns each matching row once, in
    whatever order, a new profile is listed by [GET /clients] for the
    user it was created for, together with the profiles that user already
    had, and for nobody else.  When [userId] names no user, the profile
    is stored all the same, without an owner, and no listing shows it. *)
Theorem createClientProfile_listing
    (userId : string) (client : CreateClientProfileDto.t) (s : Store Amount) :
  (forall s0 rows,
      Permutation (List.map to_view (find_result s0 rows))
                  (List.map to_view rows)) ->
  List.find (same_email_or_phone (CreateClientProfileDto.email client)
                                 (CreateClientProfileDto.phone client))
            (st_clients s) = None ->
  let out := createClientProfile userId client s in
  exists row,
    fst out = Done row
    /\ ClientProfile.user row = List.find (UsersService.by_id userId) (st_users s)
    /\ (is_Some (ClientProfile.user row) ->
        exists listed,
          fst (controller_getAllClientProfiles userId (snd out)) = Done listed
          /\ Permutation listed
               (to_view row
                :: List.map to_view
                     (List.filter (owned_by userId) (st_clients s))))
    /\ (forall other,
          other <> userId \/ ClientProfile.user row = None ->
          exists listed,
            fst (controller_getAllClientProfiles other (snd out)) = Done listed
            /\ Permutation listed
                 (List.map to_view
                    (List.filter (owned_by other) (st_clients s)))).
Proof.
  intros Hdb F. cbv zeta. rewrite (createClientProfile_free _ _ _ F). cbv zeta.
  set (row := ClientProfile.mk _ _ _ _ _ _ _).
  exists row. split; [reflexivity|]. split; [reflexivity|].
  cbn [fst snd].
  assert (Hlist : forall other,
    exists listed,
      fst (controller_getAllClientProfiles other
             (with_clients (st_clients s ++ [row]) s)) = Done listed
      /\ Permutation listed
           (List.map to_view
              (List.filter (owned_by other) (st_clients s)
               ++ (if owned_by other row then [row] else [])))%list).
  { intros other. rewrite controller_getAllClientProfiles_effect.
    cbn [fst st_clients with_clients]. rewrite List.filter_app.
    eexists. split; [reflexivity|]. cbn [List.filter]. apply Hdb. }
  assert (Hown : forall other,
    owned_by other row
    = match List.find (UsersService.by_id userId) (st_users s) with
      | Some u => String.eqb (User.id u) other
      | None => false
      end) by reflexivity.
  split.
  - intros [u U]. cbn [ClientProfile.user row] in U.
    pose proof (StoreFacts.find_by_id_sound _ _ _ U) as Hid.
    assert (Hmine : owned_by userId row = true)
      by (rewrite Hown, U, Hid; apply String.eqb_refl).
    destruct (Hlist userId) as (listed & Hrun & Hperm).
    exists listed. split; [exact Hrun|].
    rewrite Hmine, List.map_app in Hperm. cbn [List.map] in Hperm.
    etransitivity; [exact Hperm|].
    symmetry. apply Permutation_cons_append.
  - intros other Hcase.
    assert (Hnot : owned_by other row = false).
    { rewrite Hown. destruct Hcase as [Hne|Hnone].
      - destruct (List.find _ (st_users s)) as [u|] eqn:U; [|reflexivity].
        rewrite (StoreFacts.find_by_id_sound _ _ _ U).
        destruct (String.eqb_spec userId other); congruence.
      - cbn [ClientProfile.user row] in Hnone. now rewrite Hnone. }
    destruct (Hlist other) as (listed & Hrun & Hperm).
    exists listed. split; [exact Hrun|].
    now rewrite Hnot, app_nil_r in Hperm.
Qed.

End ClientListing.

(* ===================================================================== *)
(** ** Invoices *)
(* ===================================================================== *)

Section Invoices.

Context {Amount Transaction : Type} `{Remote Amount Transaction}.

Lemma getInvoiceDetails_found (invoiceId : string) (s : Store Amount) inv :
  List.find (invoice_by_id invoiceId) (st_invoices s) = Some inv ->
  getInvoiceDetails invoiceId s
  = (Done (mkLoaded inv (List.find (UsersService.by_id (userId inv)) (st_users s))),
     s).
Proof.
  intros F. unfold getInvoiceDetails, andThen, invoiceRepository_findOne.
  now rewrite F.
Qed.

Lemma getInvoiceDetails_missing (invoiceId : string) (s : Store Amount) :
  List.find (invoice_by_id invoiceId) (st_invoices s) = None ->
  getInvoiceDetails invoiceId s
  = (Fail (Nest (NotFoundException "Invoice not found")), s).
Proof.
  intros F. unfold getInvoiceDetails, andThen, invoiceRepository_findOne.
  now rewrite F.
Qed.

Lemma found_invoice_id (invoiceId : string) (xs : list (Invoice Amount)) inv :
  List.find (invoice_by_id invoiceId) xs = Some inv -> invoice_id inv = invoiceId.
Proof. intros [_ E]%List.find_some. now apply String.eqb_eq. Qed.

(** Saving a row that was read puts it where the old one was. *)
Lemma find_overwrite (row old : Invoice Amount) (xs : list (Invoice Amount)) :
  List.find (invoice_by_id (invoice_id row)) xs = Some old ->
  List.find (invoice_by_id (invoice_id row)) (List.map (overwrite row) xs)
  = Some row.
Proof.
  induction xs as [|x xs IH]; simpl; [discriminate|].
  destruct (invoice_by_id (invoice_id row) x) eqn:E.
  - intros _.
    replace (overwrite row x) with row by (unfold overwrite; now rewrite E).
    unfold invoice_by_id at 1. now rewrite String.eqb_refl.
  - replace (overwrite row x) with x by (unfold overwrite; now rewrite E).
    rewrite E. exact IH.
Qed.

(** X17: whatever the request and the collaborators do, [createInvoice]
    either fails with HttpException "Failed to create invoice" (500) or
    returns an invoice that it has appended to the table with the
    description and amount of the request, the given user and client, no
    payment reference and the status "unpaid" (the [status] and
    [clientId] fields of the request are not read), after asking for one
    transaction, "pending", for the amount of that invoice. *)
Theorem createInvoice_outcomes
    (dto : CreateInvoiceDto Amount) (uid cid : string) (s : Store Amount) :
  let out := createInvoice dto uid cid s in
  match fst out with
  | Done (inv, _) =>
      status inv = "unpaid" /\ paymentReference inv = None
      /\ description inv = dto_description dto /\ amount inv = dto_amount dto
      /\ userId inv = uid /\ clientId inv = cid
      /\ st_invoices (snd out) = (st_invoices s ++ [inv])%list
      /\ st_events (snd out)
         = (st_events s
            ++ [EvClientCheck cid uid;
                EvCreateTransaction (invoice_id inv) (amount inv) "pending"
                                    uid cid])%list
  | Fail f => f = HttpException "Failed to create invoice" INTERNAL_SERVER_ERROR
  end.
Proof.
  cbv zeta. unfold createInvoice, attempt, andThen, call, invoiceRepository_insert,
    yield, raise.
  destruct (getClientByIdAndUserId cid uid s); cbn [fst snd]; [|reflexivity].
  destruct (createTransaction _ _ _ _ _ _); cbn [fst snd]; [|reflexivity].
  cbn [status paymentReference description amount userId clientId invoice_id
       st_invoices st_events log with_invoices].
  repeat split. now rewrite <- app_assoc.
Qed.

(** X18: [createInvoice] does not undo its insert: when the transaction
    cannot be created the caller gets the 500, and the invoice stays in
    the table; when the client check fails nothing has been stored. *)
Theorem createInvoice_no_rollback
    (dto : CreateInvoiceDto Amount) (uid cid : string) (s : Store Amount) :
  let inv := mkInvoice (new_id (length (st_invoices s))) (dto_description dto)
               (dto_amount dto) "unpaid" None uid cid in
  let at_call := with_invoices (st_invoices s ++ [inv])
                   (log (EvClientCheck cid uid) s) in
  let out := createInvoice dto uid cid s in
  (forall f, getClientByIdAndUserId cid uid s = Fail f ->
     fst out = Fail (HttpException "Failed to create invoice" INTERNAL_SERVER_ERROR)
     /\ st_invoices (snd out) = st_invoices s)
  /\ (forall f, getClientByIdAndUserId cid uid s = Done tt ->
        createTransaction (invoice_id inv) (amount inv) "pending" uid cid at_call
        = Fail f ->
        fst out = Fail (HttpException "Failed to create invoice"
                          INTERNAL_SERVER_ERROR)
        /\ st_invoices (snd out) = (st_invoices s ++ [inv])%list).
Proof.
  cbv zeta. unfold createInvoice, attempt, andThen, call, invoiceRepository_insert,
    yield, raise. split.
  - intros f ->. now split.
  - intros f -> Htx. cbn [fst snd invoice_id amount st_invoices log] in *.
    rewrite Htx.
    now split.
Qed.

(** X19: for an invoice that already has a payment reference,
    [generatePaystackLink] asks the provider for the link of that
    reference and returns its answer as it is, a failure included; it
    starts no new payment and leaves the tables alone.  For an unknown
    invoice it throws NotFound "Invoice not found" without any call. *)
Theorem generatePaystackLink_reuses_reference
    (invoiceId reference : string) (s : Store Amount) (inv : Invoice Amount) :
  (List.find (invoice_by_id invoiceId) (st_invoices s) = None ->
   generatePaystackLink invoiceId s
   = (Fail (Nest (NotFoundException "Invoice not found")), s))
  /\ (List.find (invoice_by_id invoiceId) (st_invoices s) = Some inv ->
      paymentReference inv = Some reference ->
      truthy_string reference = true ->
      generatePaystackLink invoiceId s
      = (getPaymentLinkFromReference reference s,
         log (EvPaymentLink reference) s)).
Proof.
  unfold generatePaystackLink, andThen. split.
  - intros F. now rewrite (getInvoiceDetails_missing _ _ F).
  - intros F R T. rewrite (getInvoiceDetails_found _ _ _ F).
    cbn [invoice]. rewrite R. cbn [truthy_opt_string default]. now rewrite T.
Qed.

(** X20: the first [generatePaystackLink] for an invoice without a
    reference starts one payment for the e-mail address of the invoice's
    user and the invoice's amount, stores the reference it gets and
    returns the authorization URL; a second call finds the reference and
    only asks for its link, so no second payment is started. *)
Theorem generatePaystackLink_initiates_once
    (invoiceId : string) (s : Store Amount) (inv : Invoice Amount) (u : User.t)
    (resp : InitiatedPayment) :
  List.find (invoice_by_id invoiceId) (st_invoices s) = Some inv ->
  truthy_opt_string (paymentReference inv) = false ->
  List.find (UsersService.by_id (userId inv)) (st_users s) = Some u ->
  initiatePayment (User.email u) (amount inv) s = Done resp ->
  truthy_string (init_reference resp) = true ->
  let out := generatePaystackLink invoiceId s in
  fst out = Done (authorization_url resp)
  /\ st_events (snd out)
     = (st_events s ++ [EvInitiatePayment (User.email u) (amount inv)])%list
  /\ (exists inv',
        List.find (invoice_by_id invoiceId) (st_invoices (snd out)) = Some inv'
        /\ paymentReference inv' = Some (init_reference resp)
        /\ status inv' = status inv /\ amount inv' = amount inv)
  /\ snd (generatePaystackLink invoiceId (snd out))
     = log (EvPaymentLink (init_reference resp)) (snd out).
Proof.
  intros F R U I T. cbv zeta.
  pose proof (found_invoice_id _ _ _ F) as Hid.
  assert (Hfirst : generatePaystackLink invoiceId s =
    (Done (authorization_url resp),
     with_invoices
       (List.map
          (overwrite
             (mkInvoice (invoice_id inv) (description inv) (amount inv)
                (status inv) (Some (init_reference resp)) (userId inv)
                (clientId inv)))
          (st_invoices s))
       (log (EvInitiatePayment (User.email u) (amount inv)) s))).
  { unfold generatePaystackLink, andThen.
    rewrite (getInvoiceDetails_found _ _ _ F). cbn [invoice invoice_user].
    rewrite R, U. unfold attempt, andThen, the_user, call, yield.
    cbn [invoice_user invoice]. now rewrite I. }
  rewrite Hfirst. cbn [fst snd].
  set (row := mkInvoice (invoice_id inv) _ _ _ _ _ _).
  assert (F' : List.find (invoice_by_id invoiceId)
                 (List.map (overwrite row) (st_invoices s)) = Some row).
  { rewrite <- Hid. apply (find_overwrite row inv). cbn [invoice_id row].
    now rewrite Hid. }
  split; [reflexivity|]. split; [reflexivity|]. split.
  - exists row. repeat split. exact F'.
  - unfold generatePaystackLink, andThen.
    erewrite getInvoiceDetails_found by exact F'.
    cbn [invoice paymentReference row truthy_opt_string default].
    now rewrite T.
Qed.

(** X21: when no payment can be started for an invoice without a
    reference, because the invoice's user cannot be read or because the
    provider fails, [generatePaystackLink] throws HttpException "Error
    generating Paystack link" (500) and the invoice keeps no
    reference. *)
Theorem generatePaystackLink_failure
    (invoiceId : string) (s : Store Amount) (inv : Invoice Amount) :
  List.find (invoice_by_id invoiceId) (st_invoices s) = Some inv ->
  truthy_opt_string (paymentReference inv) = false ->
  (match List.find (UsersService.by_id (userId inv)) (st_users s) with
   | None => True
   | Some u => exists f, initiatePayment (User.email u) (amount inv) s = Fail f
   end) ->
  let out := generatePaystackLink invoiceId s in
  fst out = Fail (HttpException "Error generating Paystack link"
                    INTERNAL_SERVER_ERROR)
  /\ st_invoices (snd out) = st_invoices s.
Proof.
  intros F R Hfail. cbv zeta. unfold generatePaystackLink, andThen.
  rewrite (getInvoiceDetails_found _ _ _ F). cbn [invoice invoice_user].
  rewrite R. unfold attempt, andThen, the_user, call, yield, raise.
  cbn [invoice_user invoice].
  destruct (List.find _ (st_users s)) as [u|]; [|now split].
  destruct Hfail as [f ->]. now split.
Qed.

End Invoices.

Section InvoicePayments.

Context {Amount Transaction : Type} `{Remote Amount Transaction}.

Variables (invoiceId : string) (s : Store Amount) (inv : Invoice Amount)
          (pd : PaymentData Amount).
Hypothesis found : List.find (invoice_by_id invoiceId) (st_invoices s) = Some inv.
Hypothesis verified : verifyPayment (paymentReference inv) s = Done pd.

(** The invoice as [markInvoiceAsPaid] saves it: status, reference and
    amount come from the provider. *)
Let paid : Invoice Amount :=
  mkInvoice (invoice_id inv) (description inv) (pay_amount pd) "paid"
            (Some (pay_reference pd)) (userId inv) (clientId inv).

(** The store when the transaction service is called. *)
Let saved : Store Amount :=
  with_invoices (List.map (overwrite paid) (st_invoices s))
    (log (EvVerifyPayment (paymentReference inv)) s).

(** [markInvoiceAsPaid] up to the answer of the provider. *)
Lemma markInvoiceAsPaid_verified :
  markInvoiceAsPaid invoiceId s =
  if String.eqb (pay_status pd) "success"
  then
    match updateTransactionStatus invoiceId "success" saved with
    | Fail f => (Fail f, log (EvTransactionStatus invoiceId "success") saved)
    | Done _ =>
        match List.find (UsersService.by_id (userId inv)) (st_users s) with
        | None =>
            (Fail (Nest (TypeError "Cannot read properties of null (reading 'id')")),
             log (EvTransactionStatus invoiceId "success") saved)
        | Some u =>
            match updateWalletBalance (User.id u) (pay_amount pd)
                    (log (EvTransactionStatus invoiceId "success") saved) with
            | Fail f =>
                (Fail f,
                 log (EvWalletBalance (User.id u) (pay_amount pd))
                   (log (EvTransactionStatus invoiceId "success") saved))
            | Done _ =>
                (Done paid,
                 log (EvWalletBalance (User.id u) (pay_amount pd))
                   (log (EvTransactionStatus invoiceId "success") saved))
            end
        end
    end
  else (Fail (HttpException "Payment verification failed" BAD_REQUEST),
        log (EvVerifyPayment (paymentReference inv)) s).
Proof.
  unfold markInvoiceAsPaid, andThen.
  rewrite (getInvoiceDetails_found _ _ _ found).
  unfold call at 1. cbn [invoice]. rewrite verified.
  destruct (String.eqb (pay_status pd) "success"); [|reflexivity].
  unfold invoiceRepository_save, call, the_user, yield, raise.
  cbn [invoice invoice_user]. fold paid.
  change (st_invoices (log (EvVerifyPayment (paymentReference inv)) s))
    with (st_invoices s).
  fold saved.
  destruct (updateTransactionStatus invoiceId "success" saved); [|reflexivity].
  destruct (List.find _ (st_users s)) as [u|]; [|reflexivity].
  now destruct (updateWalletBalance _ _ _).
Qed.

Lemma paid_is_stored :
  List.find (invoice_by_id invoiceId) (List.map (overwrite paid) (st_invoices s))
  = Some paid.
Proof.
  pose proof (found_invoice_id _ _ _ found) as Hid.
  rewrite <- Hid. apply (find_overwrite paid inv).
  cbn [invoice_id paid]. now rewrite Hid.
Qed.

(** X22: when the provider reports anything but "success",
    [markInvoiceAsPaid] throws HttpException "Payment verification
    failed" (400); the invoice table is untouched and nothing but the
    verification has been called. *)
Theorem markInvoiceAsPaid_declined :
  String.eqb (pay_status pd) "success" = false ->
  markInvoiceAsPaid invoiceId s
  = (Fail (HttpException "Payment verification failed" BAD_REQUEST),
     log (EvVerifyPayment (paymentReference inv)) s).
Proof. intros D. now rewrite markInvoiceAsPaid_verified, D. Qed.

(** X23: when the provider reports "success" and the other services
    answer, [markInvoiceAsPaid] stores the invoice as "paid" with the
    reference and the amount reported by the provider (not the amount
    invoiced), marks the transaction "success" and credits the wallet of
    the invoice's user with the reported amount, in that order, whatever
    the status of the invoice was before. *)
Theorem markInvoiceAsPaid_success (u : User.t) :
  pay_status pd = "success" ->
  List.find (UsersService.by_id (userId inv)) (st_users s) = Some u ->
  (forall st, updateTransactionStatus invoiceId "success" st = Done tt) ->
  (forall st, updateWalletBalance (User.id u) (pay_amount pd) st = Done tt) ->
  let out := markInvoiceAsPaid invoiceId s in
  fst out = Done paid
  /\ List.find (invoice_by_id invoiceId) (st_invoices (snd out)) = Some paid
  /\ st_events (snd out)
     = (st_events s
        ++ [EvVerifyPayment (paymentReference inv);
            EvTransactionStatus invoiceId "success";
            EvWalletBalance (User.id u) (pay_amount pd)])%list.
Proof.
  intros S U T W. cbv zeta.
  rewrite markInvoiceAsPaid_verified, S, T, U, W, String.eqb_refl. cbn [fst snd].
  split; [reflexivity|]. split; [exact paid_is_stored|].
  subst saved. cbn [st_events log with_invoices]. now rewrite <- !app_assoc.
Qed.

(** X24: nothing is undone when a later step fails: if the transaction
    service refuses the update, or if the invoice's user cannot be read,
    [markInvoiceAsPaid] fails, the invoice is nevertheless stored as
    "paid", and the wallet has not been credited. *)
Theorem markInvoiceAsPaid_no_rollback :
  pay_status pd = "success" ->
  (exists f, updateTransactionStatus invoiceId "success" saved = Fail f)
  \/ (updateTransactionStatus invoiceId "success" saved = Done tt
      /\ List.find (UsersService.by_id (userId inv)) (st_users s) = None) ->
  let out := markInvoiceAsPaid invoiceId s in
  succeeded_billing (fst out) = false
  /\ List.find (invoice_by_id invoiceId) (st_invoices (snd out)) = Some paid
  /\ st_events (snd out)
     = (st_events s
        ++ [EvVerifyPayment (paymentReference inv);
            EvTransactionStatus invoiceId "success"])%list.
Proof.
  intros S Hcase. cbv zeta. rewrite markInvoiceAsPaid_verified, S, String.eqb_refl.
  assert (Hev : st_events (log (EvTransactionStatus invoiceId "success") saved)
                = (st_events s
                   ++ [EvVerifyPayment (paymentReference inv);
                       EvTransactionStatus invoiceId "success"])%list)
    by (subst saved; cbn [st_events log with_invoices]; now rewrite <- !app_assoc).
  destruct Hcase as [[f ->]|[-> ->]]; cbn [fst snd];
    (split; [reflexivity|]); (split; [exact paid_is_stored|exact Hev]).
Qed.

End InvoicePayments.

Section RepeatedPayment.

Context {Amount Transaction : Type} `{Remote Amount Transaction}.

(** X25: [markInvoiceAsPaid] does not look at the status of the invoice:
    called twice for the same invoice while the provider keeps reporting
    the payment as successful, it credits the wallet of the invoice's
    user twice. *)
Theorem markInvoiceAsPaid_twice_credits_twice
    (invoiceId : string) (s : Store Amount) (inv : Invoice Amount)
    (pd : PaymentData Amount) (u : User.t) :
  List.find (invoice_by_id invoiceId) (st_invoices s) = Some inv ->
  List.find (UsersService.by_id (userId inv)) (st_users s) = Some u ->
  pay_status pd = "success" ->
  (forall r st, verifyPayment r st = Done pd) ->
  (forall st, updateTransactionStatus invoiceId "success" st = Done tt) ->
  (forall st, updateWalletBalance (User.id u) (pay_amount pd) st = Done tt) ->
  let once := markInvoiceAsPaid invoiceId s in
  let twice := markInvoiceAsPaid invoiceId (snd once) in
  succeeded_billing (fst once) = true /\ succeeded_billing (fst twice) = true
  /\ st_events (snd twice)
     = (st_events s
        ++ [EvVerifyPayment (paymentReference inv);
            EvTransactionStatus invoiceId "success";
            EvWalletBalance (User.id u) (pay_amount pd);
            EvVerifyPayment (Some (pay_reference pd));
            EvTransactionStatus invoiceId "success";
            EvWalletBalance (User.id u) (pay_amount pd)])%list.
Proof.
  intros F U S V T W. cbv zeta.
  rewrite (markInvoiceAsPaid_verified invoiceId s inv pd F (V _ _)).
  rewrite S, T, U, W, String.eqb_refl. cbn [fst snd].
  set (paid := mkInvoice (invoice_id inv) _ _ _ _ _ _).
  set (s1 := log (EvWalletBalance _ _) _).
  assert (F1 : List.find (invoice_by_id invoiceId) (st_invoices s1) = Some paid)
    by (exact (paid_is_stored invoiceId s inv pd F)).
  assert (U1 : List.find (UsersService.by_id (userId paid)) (st_users s1) = Some u)
    by exact U.
  rewrite (markInvoiceAsPaid_verified invoiceId s1 paid pd F1 (V _ _)).
  rewrite S, T, U1, W, String.eqb_refl. cbn [fst snd].
  split; [reflexivity|]. split; [reflexivity|].
  subst s1. cbn [st_events log with_invoices paymentReference paid].
  now rewrite <- !app_assoc.
Qed.

End RepeatedPayment.

(* ===================================================================== *)
(** ** The further properties, run on the reference worlds *)
(* ===================================================================== *)

(** X3, run: five minutes after the request the issued code is refused. *)
Lemma otp_expires_witness :
  rejected_NotFound
    (fst (@resetPassword Reference.libs "alice@example.com" "071047" "n3w"
            (elapse 300 Reference.world_otp))) = true.
Proof.
  apply (@otp_expires_after_300_seconds Reference.libs "alice@example.com"
           "071047" "n3w" Reference.world0 Reference.alice 300);
    [reflexivity|reflexivity|lia].
Defined.

(** X4, run: the good code with an empty password. *)
Lemma empty_password_consumes_code_witness :
  fst (@resetPassword Reference.libs "alice@example.com" "071047" EmptyString
         Reference.world_otp)
  = Throw (Error "Password is required for hashing.")
  /\ rejected_NotFound
       (fst (@resetPassword Reference.libs "alice@example.com" "071047" "n3w"
               (snd (@resetPassword Reference.libs "alice@example.com" "071047"
                       EmptyString Reference.world_otp)))) = true.
Proof.
  destruct (@empty_password_consumes_code Reference.libs "alice@example.com"
              "071047" Reference.world_otp Reference.alice
              eq_refl eq_refl eq_refl eq_refl) as (Hout & _ & _ & Hnext).
  split; [exact Hout|exact (Hnext "n3w")].
Defined.

(** X5, run: alice asks at second 1000, carol at 1010; at second 1030 the
    code alice was given resets carol's password. *)
Lemma otp_is_shared_witness :
  exists otp,
    fst (@forgotPassword Reference.libs "alice@example.com" Scenario.world_two)
    = Ok otp
    /\ succeeded
         (fst (@resetPassword Reference.libs "carol@example.com" otp "n3w"
                 (elapse 20
                    (snd (@forgotPassword Reference.libs "carol@example.com"
                            (elapse 10
                               (snd (@forgotPassword Reference.libs
                                       "alice@example.com"
                                       Scenario.world_two))))))))
       = true.
Proof.
  destruct (@otp_is_shared_between_users Reference.libs "alice@example.com"
              "carol@example.com" "n3w" Scenario.world_two Reference.alice
              Scenario.carol 10 20 eq_refl eq_refl eq_refl eq_refl eq_refl
              eq_refl ltac:(lia) eq_refl)
    as (otp & HA & _ & Hreset).
  exists otp. split; [exact HA|exact Hreset].
Defined.

(** X6, run *)
Lemma revoked_tokens_stay_revoked_witness :
  fst (isTokenRevoked "tok-a"
         (snd (revokeToken "tok-b" (snd (revokeToken "tok-a" Reference.world0)))))
  = Ok true
  /\ fst (isTokenRevoked "tok-c"
            (snd (revokeToken "tok-b" (snd (revokeToken "tok-a" Reference.world0)))))
     = Ok false.
Proof.
  destruct (revoked_tokens_stay_revoked "tok-a" "tok-a" Reference.world0)
    as (Ha & _ & _).
  destruct (revoked_tokens_stay_revoked "tok-b" "tok-a"
              (snd (revokeToken "tok-a" Reference.world0)))
    as (_ & Hkeep & _).
  destruct (revoked_tokens_stay_revoked "tok-b" "tok-c"
              (snd (revokeToken "tok-a" Reference.world0)))
    as (_ & _ & Hother).
  split; [exact (Hkeep Ha)|].
  rewrite Hother by discriminate. reflexivity.
Defined.

(** X7, run: after alice's signout her refresh token is refused and her
    access token is on the revoked list. *)
Lemma signout_ends_session_witness :
  fst (isTokenRevoked "tok" Scenario.world_signed_out) = Ok true
  /\ fst (@createAccessTokenFromRefreshToken Reference.libs
            (Reference.alice_refresh 1000) (elapse 0 Scenario.world_signed_out))
     = Throw (NotFoundException "Invalid token").
Proof.
  destruct (@signout_ends_session Reference.libs Reference.alice "tok"
              Reference.world_signed_in eq_refl) as (_ & Hrev & _ & Hrefuse & _).
  split; [exact Hrev|].
  exact (Hrefuse (Reference.alice_refresh 1000) (mkPayload "user-0" "user") 0
           eq_refl eq_refl).
Defined.

(** X8, run: a string that is no token at all. *)
Lemma refresh_fails_witness :
  @createAccessTokenFromRefreshToken Reference.libs "garbage" Reference.world0
  = (Throw (NotFoundException "Invalid token"), Reference.world0).
Proof.
  destruct (@refresh_fails_only_with_invalid_token Reference.libs "garbage"
              Reference.world0) as (_ & _ & _ & _ & _ & Hsame & _).
  rewrite (surjective_pairing (createAccessTokenFromRefreshToken _ _)).
  rewrite (Hsame eq_refl). reflexivity.
Defined.

(** X9, run: alice's refresh token a day after the signin. *)
Lemma signin_then_refresh_witness :
  succeeded
    (fst (@createAccessTokenFromRefreshToken Reference.libs
            (Reference.alice_refresh 1000)
            (elapse 86400 Reference.world_signed_in))) = true.
Proof.
  destruct (@signin_then_refresh Reference.libs Reference.alice Reference.world0
              86400 (ex_intro _ Reference.alice eq_refl)
              ReferenceFacts.decode_sign_alice ReferenceFacts.compare_hash)
    as (s & Hs & _ & Hok).
  injection Hs as <-. exact Hok.
Defined.

(** X10, run: bob signs up, logs in, and cannot sign up again. *)
Lemma signup_establishes_credentials_witness :
  succeeded
    (fst (@validateUser Reference.libs "bob@example.com" "hunter2"
            (snd (@signup Reference.libs Reference.bob Reference.world0)))) = true
  /\ fst (@validateUser Reference.libs "bob@example.com" "hunter3"
            (snd (@signup Reference.libs Reference.bob Reference.world0)))
     = Ok None
  /\ fst (@signup Reference.libs (CreateUserDto.mk "bob@example.com" "other")
            (snd (@signup Reference.libs Reference.bob Reference.world0)))
     = Throw (ConflictException "User already exists").
Proof.
  destruct (@signup_establishes_credentials Reference.libs
              ReferenceFacts.compare_hash Reference.bob Reference.world0
              eq_refl eq_refl) as (u & _ & Hin & Hother & Hagain).
  split; [exact (f_equal succeeded Hin)|].
  split; [exact (Hother "hunter3" eq_refl)|].
  exact (Hagain "other").
Defined.

(** X11, run: alice logs in with the password she has just set. *)
Lemma reset_then_validateUser_witness :
  exists u,
    fst (@validateUser Reference.libs "alice@example.com" "n3w"
           (snd (@resetPassword Reference.libs "alice@example.com" "071047" "n3w"
                   Reference.world_otp))) = Ok (Some u)
    /\ User.id u = "user-0" /\ User.password u = None.
Proof.
  destruct (@reset_then_validateUser Reference.libs ReferenceFacts.compare_hash
              "alice@example.com" "071047" "n3w" Reference.world_otp
              Reference.alice eq_refl eq_refl eq_refl eq_refl eq_refl)
    as [Hnew _].
  exact Hnew.
Defined.

(** X13, run: a new client is stored; a second one with the phone number
    of Acme is refused. *)
Lemma createClientProfile_conflict_witness :
  (exists row,
      fst (@createClientProfile Z string BillingReference.remote "user-0"
             BillingReference.new_client BillingReference.store0) = Done row
      /\ ClientProfile.email row = "ap@globex.example")
  /\ @createClientProfile Z string BillingReference.remote "user-0"
       (CreateClientProfileDto.mk "Acme again" "other@acme.example" "+2340000001")
       BillingReference.store0
     = (Fail (Nest (ConflictException "Client profile already exists")),
        BillingReference.store0).
Proof.
  destruct (@createClientProfile_conflict_iff Z string BillingReference.remote
              "user-0" BillingReference.new_client BillingReference.store0)
    as [_ Hfree].
  destruct (@createClientProfile_conflict_iff Z string BillingReference.remote
              "user-0"
              (CreateClientProfileDto.mk "Acme again" "other@acme.example"
                 "+2340000001")
              BillingReference.store0) as [Htaken _].
  split; [|exact (Htaken eq_refl)].
  destruct (Hfree eq_refl) as (row & Hrow & _ & _ & Hmail & _).
  exists row. split; [exact Hrow|exact Hmail].
Defined.

Lemma store0_contacts_unique :
  unique_contacts (st_clients BillingReference.store0).
Proof. split; apply NoDup_singleton. Qed.

(** X14, run *)
Lemma createClientProfile_keeps_contacts_unique_witness :
  unique_contacts
    (st_clients
       (snd (@createClientProfile Z string BillingReference.remote "user-0"
               BillingReference.new_client BillingReference.store0))).
Proof.
  apply (@createClientProfile_keeps_contacts_unique Z string
           BillingReference.remote).
  exact store0_contacts_unique.
Defined.

Lemma database_lists_each_row_once (s : Store Z) (rows : list ClientProfile.t) :
  Permutation
    (List.map to_view (@find_result Z BillingReference.database s rows))
    (List.map to_view rows).
Proof.
  cbn [find_result BillingReference.database].
  rewrite List.map_map.
  rewrite (List.map_ext (fun c => to_view (BillingReference.unloaded c)) to_view)
    by reflexivity.
  rewrite List.map_rev. symmetry. apply Permutation_rev.
Qed.

(** X15, run: with a database that lists the newest row first, alice's
    listing shows the new client and the one she had. *)
Lemma createClientProfile_listing_witness :
  exists row listed,
    fst (@controller_getAllClientProfiles Z BillingReference.database "user-0"
           (snd (@createClientProfile Z string BillingReference.remote "user-0"
                   BillingReference.new_client BillingReference.store0)))
    = Done listed
    /\ Permutation listed [to_view row; to_view BillingReference.acme]
    /\ ClientProfile.fullName row = "Globex".
Proof.
  destruct (@createClientProfile_listing Z string BillingReference.remote
              BillingReference.database
              "user-0" BillingReference.new_client BillingReference.store0
              database_lists_each_row_once
              eq_refl) as (row & Hrow & Huser & Hmine & _).
  destruct Hmine as (listed & Hrun & Hperm).
  { rewrite Huser. exists Reference.alice. reflexivity. }
  exists row, listed. split; [exact Hrun|]. split; [exact Hperm|].
  injection Hrow as <-. reflexivity.
Defined.

(** X16, run *)
Lemma getClientById_witness :
  @getClientById Z "id-0" BillingReference.store0
  = (Done BillingReference.acme, BillingReference.store0)
  /\ @getClientById Z "id-7" BillingReference.store0
     = (Fail (Nest (NotFoundException "Client not found")),
        BillingReference.store0).
Proof.
  destruct (@getClientById_found_or_NotFound Z string BillingReference.remote
              "id-0" "user-0" BillingReference.new_client BillingReference.store0)
    as (_ & Hfound & _).
  destruct (@getClientById_found_or_NotFound Z string BillingReference.remote
              "id-7" "user-0" BillingReference.new_client BillingReference.store0)
    as (Hmissing & _ & _).
  split; [exact (proj1 (Hfound BillingReference.acme eq_refl))|].
  exact (Hmissing eq_refl).
Defined.

(** X18, run: the transaction for a closed client is refused; the caller
    gets the 500 and the invoice is in the table. *)
Lemma createInvoice_no_rollback_witness :
  fst (@createInvoice Z string BillingReference.remote
         (mkCreateInvoiceDto "Logo" 250 "ignored" "paid") "user-0" "client-closed"
         BillingReference.store0)
  = Fail (HttpException "Failed to create invoice" INTERNAL_SERVER_ERROR)
  /\ length
       (st_invoices
          (snd (@createInvoice Z string BillingReference.remote
                  (mkCreateInvoiceDto "Logo" 250 "ignored" "paid") "user-0"
                  "client-closed" BillingReference.store0))) = 6%nat.
Proof.
  destruct (@createInvoice_no_rollback Z string BillingReference.remote
              (mkCreateInvoiceDto "Logo" 250 "ignored" "paid") "user-0"
              "client-closed" BillingReference.store0) as [_ Htx].
  destruct (Htx (Nest (Error "transaction refused")) eq_refl eq_refl)
    as [Hout Hkept].
  split; [exact Hout|]. rewrite Hkept. reflexivity.
Defined.

(** X19, run *)
Lemma generatePaystackLink_reuses_reference_witness :
  @generatePaystackLink Z string BillingReference.remote "id-2"
    BillingReference.store0
  = (Done "https://checkout.example/ref-2",
     log (EvPaymentLink "ref-2") BillingReference.store0).
Proof.
  destruct (@generatePaystackLink_reuses_reference Z string
              BillingReference.remote "id-2" "ref-2" BillingReference.store0
              BillingReference.invoice2) as [_ Hreuse].
  exact (Hreuse eq_refl eq_refl eq_refl).
Defined.

(** X20, run *)
Lemma generatePaystackLink_initiates_once_witness :
  fst (@generatePaystackLink Z string BillingReference.remote "id-0"
         BillingReference.store0)
  = Done "https://checkout.example/ref-1"
  /\ st_events
       (snd (@generatePaystackLink Z string BillingReference.remote "id-0"
               (snd (@generatePaystackLink Z string BillingReference.remote
                       "id-0" BillingReference.store0))))
     = [EvInitiatePayment "alice@example.com" 4800; EvPaymentLink "ref-1"].
Proof.
  destruct (@generatePaystackLink_initiates_once Z string BillingReference.remote
              "id-0" BillingReference.store0 BillingReference.invoice0
              Reference.alice
              (mkInitiated "ref-1" "https://checkout.example/ref-1")
              eq_refl eq_refl eq_refl eq_refl eq_refl)
    as (Hurl & Hev & _ & Hsecond).
  split; [exact Hurl|]. rewrite Hsecond. cbn [st_events log]. rewrite Hev.
  reflexivity.
Defined.

(** X21, run: the user of invoice id-4 cannot be read. *)
Lemma generatePaystackLink_failure_witness :
  fst (@generatePaystackLink Z string BillingReference.remote "id-4"
         BillingReference.store0)
  = Fail (HttpException "Error generating Paystack link" INTERNAL_SERVER_ERROR).
Proof.
  apply (@generatePaystackLink_failure Z string BillingReference.remote "id-4"
           BillingReference.store0 BillingReference.invoice4 eq_refl eq_refl I).
Defined.

(** X22, run *)
Lemma markInvoiceAsPaid_declined_witness :
  @markInvoiceAsPaid Z string BillingReference.remote "id-1"
    BillingReference.store0
  = (Fail (HttpException "Payment verification failed" BAD_REQUEST),
     log (EvVerifyPayment (Some "ref-declined")) BillingReference.store0).
Proof.
  apply (@markInvoiceAsPaid_declined Z string BillingReference.remote "id-1"
           BillingReference.store0 BillingReference.invoice1
           (mkPaymentData "failed" "ref-declined" 0) eq_refl eq_refl eq_refl).
Defined.

(** X23, run *)
Lemma markInvoiceAsPaid_success_witness :
  fst (@markInvoiceAsPaid Z string BillingReference.remote "id-3"
         BillingReference.store0)
  = Done (mkInvoice "id-3" "Audit" 5000 "paid" (Some "ref-3") "user-0" "id-0")
  /\ st_events
       (snd (@markInvoiceAsPaid Z string BillingReference.remote "id-3"
               BillingReference.store0))
     = [EvVerifyPayment (Some "ref-3"); EvTransactionStatus "id-3" "success";
        EvWalletBalance "user-0" 5000].
Proof.
  destruct (@markInvoiceAsPaid_success Z string BillingReference.remote "id-3"
              BillingReference.store0 BillingReference.invoice3
              (mkPaymentData "success" "ref-3" 5000) eq_refl eq_refl
              Reference.alice eq_refl eq_refl
              (fun _ => eq_refl) (fun _ => eq_refl))
    as (Hout & _ & Hev).
  split; [exact Hout|exact Hev].
Defined.

(** X24, run: the transaction of invoice id-2 is locked. *)
Lemma markInvoiceAsPaid_no_rollback_witness :
  fst (@markInvoiceAsPaid Z string BillingReference.remote "id-2"
         BillingReference.store0)
  = Fail (Nest (Error "transaction locked"))
  /\ List.find (invoice_by_id "id-2")
       (st_invoices
          (snd (@markInvoiceAsPaid Z string BillingReference.remote "id-2"
                  BillingReference.store0)))
     = Some (mkInvoice "id-2" "Support" 5000 "paid" (Some "ref-2") "user-0" "id-0").
Proof.
  destruct (@markInvoiceAsPaid_no_rollback Z string BillingReference.remote "id-2"
              BillingReference.store0 BillingReference.invoice2
              (mkPaymentData "success" "ref-2" 5000) eq_refl eq_refl eq_refl
              (or_introl (ex_intro _ (Nest (Error "transaction locked")) eq_refl)))
    as (_ & Hpaid & _).
  split; [reflexivity|exact Hpaid].
Defined.

(** X25, run: two calls, two credits of 5000 to alice. *)
Lemma markInvoiceAsPaid_twice_witness :
  st_events
    (snd (@markInvoiceAsPaid Z string BillingReference.approving "id-3"
            (snd (@markInvoiceAsPaid Z string BillingReference.approving "id-3"
                    BillingReference.store0))))
  = [EvVerifyPayment (Some "ref-3"); EvTransactionStatus "id-3" "success";
     EvWalletBalance "user-0" 5000;
     EvVerifyPayment (Some "ref-ok"); EvTransactionStatus "id-3" "success";
     EvWalletBalance "user-0" 5000].
Proof.
  destruct (@markInvoiceAsPaid_twice_credits_twice Z string
              BillingReference.approving "id-3" BillingReference.store0
              BillingReference.invoice3
              (mkPaymentData "success" "ref-ok" 5000) Reference.alice
              eq_refl eq_refl eq_refl (fun _ _ => eq_refl) (fun _ => eq_refl)
              (fun _ => eq_refl)) as (_ & _ & Hev).
  exact Hev.
Defined.
